(** * webform-cli: schema normalisation, field extraction and type coercion

    A shallow embedding of the schema-driven extraction engine of
    webform-cli ([src/schemaLoader.ts], [src/extractor.ts], [src/output.ts])
    and the properties its specification states about it.

    JavaScript objects used as dictionaries are finite maps ([gmap string _])
    of their own properties: keys are unique and a
    [for (... of Object.entries(o))] loop is a [map_fold].  The loops
    modelled here write each key at most once, to a slot named by the key,
    so their result does not depend on the order of enumeration.

    Two things set a JavaScript object apart from a finite map, and both
    show in the code.  An assignment [obj[k] = v] to the key [__proto__]
    stores nothing in the object ([assign]); and a read [obj[k]] answers
    the members the object inherits ([toString], [constructor], ...) as
    well as its own ([get], [Prototypes]). *)

From Stdlib Require PrimFloat FloatOps Uint63.
From stdpp Require Import gmap strings list fin_maps pretty.

Set Warnings "-register-all".

(** ** JavaScript values *)

Module Js.

Abbreviation number := PrimFloat.float.

(** The values [JSON.parse] produces, plus [undefined], which appears as
    the result of reading a missing property. *)
Inductive any : Type :=
  | VUndefined
  | VNull
  | VBoolean (b : bool)
  | VNumber (n : number)
  | VString (s : string)
  | VArray (l : list any)
  | VObject (m : gmap string any).

Definition is_undefined (v : any) : bool :=
  match v with VUndefined => true | _ => false end.

Definition is_null (v : any) : bool :=
  match v with VNull => true | _ => false end.

(** [typeof v === 'object' && v !== null] *)
Definition is_object (v : any) : bool :=
  match v with VArray _ | VObject _ => true | _ => false end.

(** ToBoolean: [undefined], [null], [false], [+0], [-0], [NaN] and the
    empty string are falsy, everything else (every object and array
    included) is truthy. *)
Definition truthy (v : any) : bool :=
  match v with
  | VUndefined | VNull => false
  | VBoolean b => b
  | VNumber n => negb (PrimFloat.is_nan n || PrimFloat.eqb n PrimFloat.zero)
  | VString s => negb (bool_decide (s = ""))
  | VArray _ | VObject _ => true
  end.

Definition number_of_nat (n : nat) : number :=
  PrimFloat.of_uint63 (Uint63.of_Z (Z.of_nat n)).

(** The own index properties of an array, keyed by the decimal index. *)
Definition array_entries (l : list any) : gmap string any :=
  list_to_map (imap (λ i x, (pretty i, x)) l).

(** The characters of a string as one-character strings. *)
Definition string_chars (s : string) : list any :=
  (λ c, VString (String c EmptyString)) <$> String.list_ascii_of_string s.

(** The value of a string of decimal digits, continuing from [acc]. *)
Fixpoint decimal (acc : N) (s : string) : option N :=
  match s with
  | String c s' =>
      match Ascii.is_nat c with
      | Some d => decimal (10 * acc + N.of_nat d) s'
      | None => None
      end
  | EmptyString => Some acc
  end.

(** The array index a property key denotes, when it is the canonical
    decimal text of one. *)
Definition array_index (k : string) : option nat :=
  n ← decimal 0 k;
  if decide (pretty n = k) then Some (N.to_nat n) else None.

(** Property read [v[k]] (and [v.k]).  Only own properties are modelled:
    a key that names a member inherited from a prototype ([toString],
    [constructor], [__proto__], ...) is outside the model.  The keys the
    normaliser reads are fixed names that no prototype has; where the
    coercer reads a key taken from a schema, the statements about it are
    for the keys that are not inherited ([Prototypes], below).  Reading a
    property of [null] or [undefined] raises a TypeError in JavaScript;
    every caller below guards against it before calling [get], which
    answers [undefined] there. *)
Definition get (v : any) (k : string) : any :=
  match v with
  | VObject m => default VUndefined (m !! k)
  | VArray l =>
      if decide (k = "length") then VNumber (number_of_nat (length l))
      else default VUndefined (array_index k ≫= (l !!.))
  | VString s =>
      if decide (k = "length") then VNumber (number_of_nat (String.length s))
      else default VUndefined (array_index k ≫= (string_chars s !!.))
  | _ => VUndefined
  end.

(** Assignment [obj[k] = v] to an object the code has built from [{}],
    as far as the own properties of [obj] go.  Such an object inherits
    [__proto__] from [Object.prototype], where it is an accessor: the
    assignment [obj['__proto__'] = v] runs its setter, which makes [v] the
    prototype of [obj] when [v] is an object or [null] and does nothing
    for any other [v]; either way [obj] gets no own property.  An
    assignment to any other key creates the own property or overwrites
    it.  ([JSON.parse], object spread and rest patterns define own
    properties without going through the setter: for them [__proto__] is a
    key like any other.) *)
Definition assign {A : Type} (k : string) (v : A) (obj : gmap string A)
    : gmap string A :=
  if decide (k = "__proto__") then obj else <[k := v]> obj.

(** [Object.entries(v)], as the map the loop enumerates.  [None] stands
    for the TypeError raised on [null] and [undefined]. *)
Definition Object_entries (v : any) : option (gmap string any) :=
  match v with
  | VUndefined | VNull => None
  | VObject m => Some m
  | VArray l => Some (array_entries l)
  | VString s => Some (array_entries (string_chars s))
  | VBoolean _ | VNumber _ => Some ∅
  end.

(** [s.includes(sub)] *)
Fixpoint includes (s sub : string) : bool :=
  String.prefix sub s ||
  match s with
  | EmptyString => false
  | String _ s' => includes s' sub
  end.

(** [s.endsWith(suffix)] *)
Fixpoint endsWith (s suffix : string) : bool :=
  bool_decide (s = suffix) ||
  match s with
  | EmptyString => false
  | String _ s' => endsWith s' suffix
  end.

(** [s] without its first [n] characters. *)
Fixpoint drop_chars (n : nat) (s : string) : string :=
  match n, s with
  | S n', String _ s' => drop_chars n' s'
  | _, _ => s
  end.

(** [s.replace(pattern, replacement)] with a string pattern: the first
    occurrence of [pattern] is replaced.  The replacement is taken as it
    is; the callers below pass a replacement without [$]. *)
Fixpoint replace (s pattern replacement : string) : string :=
  if String.prefix pattern s then
    replacement +:+ drop_chars (String.length pattern) s
  else
    match s with
    | EmptyString => EmptyString
    | String c s' => String c (replace s' pattern replacement)
    end.

End Js.

Export Js.

(** ** [src/schemaLoader.ts]: the schema normaliser *)

Module SchemaLoader.

(** The object literal [{ selectors, structure }]. *)
Definition ExtractorSchema_of (selectors structure : gmap string any) : any :=
  VObject {[ "selectors" := VObject selectors; "structure" := VObject structure ]}.

(** The descriptor the normaliser synthesises for a bare selector string:
    [{ type: 'string', description: `Extracted from ${s}`, nullable: true }]. *)
Definition string_descriptor (s : string) : any :=
  VObject {[ "type" := VString "string";
             "description" := VString ("Extracted from " +:+ s);
             "nullable" := VBoolean true ]}.

(** [isStructuredSchema], lines 214-220, read as the condition of the
    [if] it is used in. *)
Definition isStructuredSchema (schema : any) : bool :=
  truthy schema &&
  (truthy (get schema "type") || truthy (get schema "selectors") ||
   truthy (get schema "structure") || truthy (get schema "properties")).

(** Body of the loop of [convertToStructuredSchema], lines 315-332. *)
Definition convert_step (field : string) (value : any)
    (acc : gmap string any * gmap string any)
    : gmap string any * gmap string any :=
  let '(selectors, structure) := acc in
  match value with
  | VString s =>
      if includes s "." || includes s "#" || includes s "[" then
        (assign field value selectors, assign field (string_descriptor s) structure)
      else if bool_decide (s ∈ ["string"; "number"; "boolean"; "object"; "array"]) then
        (selectors,
         assign field (VObject {[ "type" := value; "nullable" := VBoolean true ]})
           structure)
      else acc
  | _ => acc
  end.

(** [convertToStructuredSchema], lines 311-335. *)
Definition convertToStructuredSchema (schema : any) : option any :=
  entries ← Object_entries schema;
  let '(selectors, structure) := map_fold convert_step (∅, ∅) entries in
  Some (ExtractorSchema_of selectors structure).

(** Body of the loop over [schema.properties], lines 240-253. *)
Definition properties_step (field : string) (propSchema : any)
    (acc : gmap string any * gmap string any)
    : gmap string any * gmap string any :=
  let '(selectors, structure) := acc in
  match propSchema with
  | VObject m =>
      match m !! "selector" with
      | Some (VString selector) =>
          (assign field (VString selector) selectors,
           assign field (VObject (delete "selector" m)) structure)
      | _ => (selectors, assign field propSchema structure)
      end
  | _ => (selectors, assign field propSchema structure)
  end.

(** Body of the loop over [schema.fields], lines 270-299. *)
Definition fields_step (field : string) (selectorValue : any)
    (acc : gmap string any * gmap string any)
    : gmap string any * gmap string any :=
  let '(selectors, structure) := acc in
  match selectorValue with
  | VString s =>
      (assign field selectorValue selectors, assign field (string_descriptor s) structure)
  | VObject m =>
      match m !! "selector" with
      | Some (VString selector) =>
          (assign field (VString selector) selectors,
           assign field
             (VObject
                {[ "type" :=
                     (if truthy (get selectorValue "type")
                      then get selectorValue "type" else VString "string");
                   "description" :=
                     (if truthy (get selectorValue "description")
                      then get selectorValue "description"
                      else VString ("Extracted from " +:+ selector));
                   "nullable" :=
                     (if is_undefined (get selectorValue "nullable")
                      then VBoolean true else get selectorValue "nullable") ]})
             structure)
      | _ => acc
      end
  | _ => acc
  end.

(** [parseStructuredSchema], lines 225-306. *)
Definition parseStructuredSchema (schema : any) : option any :=
  match schema with
  | VUndefined | VNull => None
  | _ =>
      if truthy (get schema "selectors") && truthy (get schema "structure") then
        Some schema
      else if truthy (get schema "type") || truthy (get schema "properties") then
        if truthy (get schema "properties") then
          entries ← Object_entries (get schema "properties");
          let '(selectors, structure) := map_fold properties_step (∅, ∅) entries in
          Some (ExtractorSchema_of selectors structure)
        else
          Some (ExtractorSchema_of ∅ {[ "root" := schema ]})
      else if truthy (get schema "fields") then
        entries ← Object_entries (get schema "fields");
        let '(selectors, structure) := map_fold fields_step (∅, ∅) entries in
        Some (ExtractorSchema_of selectors structure)
      else
        convertToStructuredSchema schema
  end.

(** [loadStructuredSchema], lines 167-195, from the parsed JSON on: the
    file read and [JSON.parse] come before it, and [validateParsedSchema]
    only prints warnings.  [None] is the "Invalid schema file" error the
    [catch] rethrows. *)
Definition loadStructuredSchema (schema : any) : option any :=
  if isStructuredSchema schema then parseStructuredSchema schema
  else convertToStructuredSchema schema.

(** [listSchemas], lines 99-110.  [files] is the answer of [fs.readdir],
    [None] when it raises. *)
Definition listSchemas (files : option (list string)) : list string :=
  match files with
  | Some files =>
      (λ file, replace file ".json" "") <$> filter (λ file, endsWith file ".json") files
  | None => []
  end.

End SchemaLoader.

Export SchemaLoader.

(** ** [src/types/schema.d.ts] *)

Module Types.

(** [interface StructuredSchema].  [type] is the tag the coercer switches
    on; it is kept as the string it is at run time ([SchemaType] is a
    union of string literals). *)
Inductive StructuredSchema : Type := MkStructuredSchema {
  type : string;
  format : option string;
  description : option string;
  nullable : option bool;
  enum : option (list string);
  maxItems : option number;
  minItems : option number;
  properties : option (gmap string StructuredSchema);
  required : option (list string);
  propertyOrdering : option (list string);
  items : option StructuredSchema;
  selector : option string
}.

(** [interface ExtractorSchema]: [selectors] is a [Schema], a map from
    field names to CSS selectors; [structure] is optional. *)
Record ExtractorSchema : Type := MkExtractorSchema {
  selectors : gmap string string;
  structure : option (gmap string StructuredSchema)
}.

(** [interface StructuredOutput] *)
Abbreviation StructuredOutput := (gmap string any).

(** A descriptor that sets nothing but its [type]. *)
Definition descriptor (t : string) : StructuredSchema :=
  {| type := t; format := None; description := None; nullable := None;
     enum := None; maxItems := None; minItems := None; properties := None;
     required := None; propertyOrdering := None; items := None;
     selector := None |}.

(** The number of descriptors in a descriptor: itself, its [items] and its
    [properties], nested ones included. *)
Fixpoint schema_size (schema : StructuredSchema) : nat :=
  S (match items schema with
     | Some items => schema_size items
     | None => 0
     end
     + match properties schema with
       | Some properties => map_fold (λ _ p acc, schema_size p + acc) 0 properties
       | None => 0
       end).

(** No descriptor in [schema], nested ones included, sets [maxItems]. *)
Fixpoint no_maxItems (schema : StructuredSchema) : bool :=
  match maxItems schema with Some _ => false | None => true end
  && match items schema with
     | Some items => no_maxItems items
     | None => true
     end
  && match properties schema with
     | Some properties => map_fold (λ _ p acc, no_maxItems p && acc) true properties
     | None => true
     end.

End Types.

Export Types.

(** ** The run-time library *)

(** The built-in operations of the JavaScript run time the extractor calls
    and whose definition is not part of this repository.  Everything below
    is stated for an arbitrary implementation of them. *)
Class Builtins : Type := {
  (** [String.prototype.trim] *)
  trim : string → string;
  (** [String.prototype.toLowerCase] *)
  toLowerCase : string → string;
  (** [Number(s)] on a string *)
  StringToNumber : string → number;
  (** [String(n)] on a number *)
  NumberToString : number → string;
  (** [text.match(/(\d+)\s+comments?/)]: the first capture group of the
      leftmost match, [None] when the pattern does not match *)
  match_comments : string → option string;
  (** [toLowerCase] leaves [__proto__], which has no upper-case letter, as
      it is *)
  toLowerCase___proto__ : toLowerCase "__proto__" = "__proto__"
}.

(** The property names of [Object.prototype] in ECMAScript (with its
    annex B), and those of [Array.prototype] as of ECMAScript 2019: the
    names every current run time has. *)
Definition Object_prototype_standard : list string :=
  ["constructor"; "hasOwnProperty"; "isPrototypeOf"; "propertyIsEnumerable";
   "toLocaleString"; "toString"; "valueOf"; "__proto__";
   "__defineGetter__"; "__defineSetter__"; "__lookupGetter__"; "__lookupSetter__"].

Definition Array_prototype_standard : list string :=
  ["length"; "constructor"; "concat"; "copyWithin"; "entries"; "every"; "fill";
   "filter"; "find"; "findIndex"; "flat"; "flatMap"; "forEach"; "includes";
   "indexOf"; "join"; "keys"; "lastIndexOf"; "map"; "pop"; "push"; "reduce";
   "reduceRight"; "reverse"; "shift"; "slice"; "some"; "sort"; "splice";
   "toLocaleString"; "toString"; "unshift"; "values"].

(** The members every object inherits, by name: the property names of
    [Object.prototype] and of [Array.prototype].  A run time can have more
    than the standard ones (later editions add methods to
    [Array.prototype]), so the two sets are parameters.  A read [v[k]] of
    an object or array [v] that has no own property [k] answers the
    inherited member when [k] is one of these names, and [undefined]
    otherwise. *)
Class Prototypes : Type := {
  Object_prototype : gset string;
  Array_prototype : gset string;
  Object_prototype_has_standard :
    ∀ k, k ∈ Object_prototype_standard → k ∈ Object_prototype;
  Array_prototype_has_standard :
    ∀ k, k ∈ Array_prototype_standard → k ∈ Array_prototype
}.


(** No object in [v], nested ones included, has an own property with the
    name of an inherited member (an own [toString] or [valueOf], say,
    which [String(v)] and [Number(v)] would call). *)
Fixpoint plain_value `{!Prototypes} (v : any) : bool :=
  match v with
  | VArray l => forallb plain_value l
  | VObject m =>
      map_fold
        (λ k x acc,
           bool_decide (k ∉ Array_prototype ∪ Object_prototype)
           && plain_value x && acc)
        true m
  | _ => true
  end.

(** No property declared in [schema], nested descriptors included, has the
    name of an inherited member. *)
Fixpoint plain_properties `{!Prototypes} (schema : StructuredSchema) : bool :=
  match items schema with
  | Some items => plain_properties items
  | None => true
  end
  && match properties schema with
     | Some properties =>
         map_fold
           (λ propName p acc,
              bool_decide (propName ∉ Array_prototype ∪ Object_prototype)
              && plain_properties p && acc)
           true properties
     | None => true
     end.

(** A cheerio element, as far as the extractor looks at it: its text
    content and its [href] attribute. *)
Record Element : Type := MkElement {
  el_text : string;
  el_href : option string
}.

(** [cheerio.CheerioAPI]: the document, as the function from a selector to
    the elements it matches, in document order.  [None] stands for the
    exception the selector engine raises. *)
Definition CheerioAPI : Type := string → option (list Element).

Module Extractor.

(** [element.text()]: the concatenated text of the matched elements. *)
Definition text (element : list Element) : string :=
  foldr (λ el acc, el_text el +:+ acc) "" element.

(** [element.attr('href')]: the attribute of the first matched element. *)
Definition attr_href (element : list Element) : option string :=
  head element ≫= el_href.

Inductive IntegerOrInfinity : Type :=
  | Finite (z : Z)
  | PlusInfinity
  | MinusInfinity.

(** ToIntegerOrInfinity: truncation towards zero, [NaN] to [0]. *)
Definition ToIntegerOrInfinity (n : number) : IntegerOrInfinity :=
  match FloatOps.Prim2SF n with
  | SpecFloat.S754_zero _ | SpecFloat.S754_nan => Finite 0
  | SpecFloat.S754_infinity s => if s then MinusInfinity else PlusInfinity
  | SpecFloat.S754_finite s m e =>
      let magnitude := Z.shiftl (Z.pos m) e in
      Finite (if s then - magnitude else magnitude)
  end.

(** [value.slice(0, end)] *)
Definition slice0 (value : list any) (end_ : number) : list any :=
  let len := Z.of_nat (length value) in
  let final :=
    match ToIntegerOrInfinity end_ with
    | MinusInfinity => 0
    | PlusInfinity => len
    | Finite k => if (k <? 0)%Z then Z.max (len + k) 0 else Z.min k len
    end%Z in
  take (Z.to_nat final) value.

(** [schemaType.required?.includes(field)], as a condition *)
Definition required_includes (schema : StructuredSchema) (field : string) : bool :=
  match required schema with
  | Some names => bool_decide (field ∈ names)
  | None => false
  end.

(** [addMetadata], lines 91-99.  [now] is [new Date().toISOString()]. *)
Definition addMetadata (data : gmap string any) (now : string) : StructuredOutput :=
  <["_metadata" :=
      VObject {[ "schemaVersion" := VString "1.0"; "extractedAt" := VString now ]}]> data.

Section with_builtins.
Context `{!Builtins}.

(** [String(value)] *)
Fixpoint String_ (value : any) : string :=
  match value with
  | VUndefined => "undefined"
  | VNull => "null"
  | VBoolean b => if b then "true" else "false"
  | VNumber n => NumberToString n
  | VString s => s
  | VArray l =>
      String.concat ","
        ((λ item, match item with
                  | VUndefined | VNull => ""
                  | _ => String_ item
                  end) <$> l)
  | VObject _ => "[object Object]"
  end.

(** [Number(value)] *)
Definition Number_ (value : any) : number :=
  match value with
  | VUndefined => PrimFloat.nan
  | VNull => PrimFloat.zero
  | VBoolean b => if b then PrimFloat.one else PrimFloat.zero
  | VNumber n => n
  | VString s => StringToNumber s
  | VArray _ | VObject _ => StringToNumber (String_ value)
  end.

(** [convertToType], lines 136-186. *)
Fixpoint convertToType (value : any) (schema : StructuredSchema) {struct schema} : any :=
  if decide (type schema = "string") then
    VString (String_ value)
  else if decide (type schema = "number") then
    let num := Number_ value in
    if PrimFloat.is_nan num then VNumber PrimFloat.zero else VNumber num
  else if decide (type schema = "boolean") then
    match value with
    | VString s => VBoolean (bool_decide (toLowerCase s ∈ ["true"; "yes"; "1"]))
    | _ => VBoolean (truthy value)
    end
  else if decide (type schema = "array") then
    let value :=
      match value with
      | VArray l => l
      | _ => if truthy value then [value] else []
      end in
    let value :=
      match maxItems schema with
      | Some m =>
          if truthy (VNumber m) && PrimFloat.ltb m (number_of_nat (length value))
          then slice0 value m else value
      | None => value
      end in
    match items schema with
    | Some items => VArray ((λ item, convertToType item items) <$> value)
    | None => VArray value
    end
  else if decide (type schema = "object") then
    let value := if is_object value then value else VObject ∅ in
    match properties schema with
    | Some properties =>
        VObject
          (map_fold
             (λ propName propSchema result,
                if negb (is_undefined (get value propName))
                   || required_includes propSchema propName
                then assign propName (convertToType (get value propName) propSchema) result
                else result)
             ∅ properties)
    | None => value
    end
  else value.

(** Body of the loop of [validateAndStructure], lines 110-128.  [data] is
    the raw data the first loop of [extractStructuredData] has built, which
    has no own property [__proto__]; the read [data[field]] is the own
    entry, which is what the code reads for a field that has one and for a
    field that [data] inherits no member for.  The write is that of a
    field not named [__proto__]. *)
Definition validate_step (data : gmap string any)
    (field : string) (schemaType : StructuredSchema)
    (result : gmap string any) : gmap string any :=
  let rawValue := default VUndefined (data !! field) in
  if is_undefined rawValue && negb (required_includes schemaType field) then result
  else if is_null rawValue then
    if default false (nullable schemaType) then <[field := VNull]> result else result
  else <[field := convertToType rawValue schemaType]> result.

(** [validateAndStructure], lines 104-131. *)
Definition validateAndStructure (data : gmap string any)
    (schema : gmap string StructuredSchema) : gmap string any :=
  map_fold (validate_step data) ∅ schema.

(** The body of the [try] block of [extractStructuredData], lines
    38-74, with its [catch]: the raw value of one field.  The two
    [console.log] calls are left out.  Cheerio's [map] skips an element for
    which the callback answers [undefined], so the array of a URL field
    holds the [href]s that exist. *)
Definition extract_field (html : CheerioAPI) (fieldName selector : string) : any :=
  match html selector with
  | None => VNull
  | Some element =>
      if includes (toLowerCase fieldName) "url" then
        if bool_decide (1 < length element) then
          VArray (omap (λ el, VString <$> el_href el) element)
        else
          match attr_href element with
          | Some href => if truthy (VString href) then VString href else VNull
          | None => VNull
          end
      else if includes (toLowerCase fieldName) "comment" then
        let text := trim (text element) in
        match match_comments text with
        | Some digits => if truthy (VString digits) then VString digits else VString text
        | None => VString text
        end
      else if bool_decide (1 < length element) then
        VArray ((λ el, VString (trim (el_text el))) <$> element)
      else if bool_decide (0 < length element) then
        VString (trim (text element))
      else VNull
  end.

(** [extractData], lines 4-24. *)
Definition extractData (html : CheerioAPI) (schema : gmap string string)
    : gmap string any :=
  map_fold
    (λ fieldName selector extractedData,
       assign fieldName
         match html selector with
         | None => VNull
         | Some element =>
             if bool_decide (1 < length element) then
               VArray ((λ el, VString (trim (el_text el))) <$> element)
             else if bool_decide (0 < length element) then
               VString (trim (text element))
             else VNull
         end
         extractedData)
    ∅ schema.

(** The first loop of [extractStructuredData], lines 34-75. *)
Definition rawData (html : CheerioAPI) (selectors : gmap string string)
    : gmap string any :=
  map_fold
    (λ fieldName selector rawData,
       assign fieldName (extract_field html fieldName selector) rawData)
    ∅ selectors.

(** [extractStructuredData], lines 29-86. *)
Definition extractStructuredData (html : CheerioAPI) (schema : ExtractorSchema)
    (now : string) : StructuredOutput :=
  let rawData := rawData html (selectors schema) in
  match structure schema with
  | None => addMetadata rawData now
  | Some structure => addMetadata (validateAndStructure rawData structure) now
  end.

End with_builtins.

End Extractor.

Export Extractor.

(** ** [src/output.ts] *)

Module Output.

(** [excludeMetadata], lines 64-67. *)
Definition excludeMetadata (data : StructuredOutput) : gmap string any :=
  delete "_metadata" data.

End Output.

Export Output.

(** ** The formatter ([formatStructuredOutput] and its fallback) *)

Module Formatter.

(** Object spread [{ ...v }]: the own enumerable properties of [v], none
    for [null] and [undefined]. *)
Definition spread (v : any) : gmap string any :=
  default ∅ (Object_entries v).

Section with_builtins.
Context `{!Builtins}.

(** Body of the loop of [validateBasicTypes], lines 346-368 of the
    formatter.  [data] is an output of the extractor; as in
    [validate_step], the read is the own entry and the write that of a
    field not named [__proto__]. *)
Definition validate_basic_step (data : gmap string any)
    (field : string) (fieldSchema : StructuredSchema)
    (result : gmap string any) : gmap string any :=
  let value := default VUndefined (data !! field) in
  if is_undefined value then result
  else if decide (type fieldSchema = "string") then
    <[field := VString (String_ value)]> result
  else if decide (type fieldSchema = "number") then
    let num := Number_ value in
    <[field := if PrimFloat.is_nan num then VNumber PrimFloat.zero else VNumber num]> result
  else if decide (type fieldSchema = "boolean") then
    <[field := VBoolean (truthy value)]> result
  else if decide (type fieldSchema = "array") then
    <[field := match value with VArray _ => value | _ => VArray [value] end]> result
  else <[field := value]> result.

(** [validateBasicTypes] *)
Definition validateBasicTypes (data : gmap string any)
    (schema : gmap string StructuredSchema) : gmap string any :=
  map_fold (validate_basic_step data) ∅ schema.

(** [formatStructuredOutput], from the answer of the language model on.
    [response] is the JSON value parsed from the cleaned answer, [None]
    when the model call or [JSON.parse] raises; both [catch] blocks fall
    back to [validateBasicTypes]. *)
Definition formatStructuredOutput (response : option any)
    (extractedData : gmap string any) (schema : gmap string StructuredSchema)
    (now : string) : StructuredOutput :=
  match response with
  | Some formattedData => addMetadata (spread formattedData) now
  | None => addMetadata (validateBasicTypes extractedData schema) now
  end.

End with_builtins.

End Formatter.

Export Formatter.

(** ** The scraper ([fetchHTML], [extractData], [convertToStructuredSchema]) *)

Module Scraper.

(** What one call of [axios.get] does: it answers with the page, or
    raises an error with a message. *)
Inductive outcome : Type :=
  | Response (data : string)
  | Failure (message : string).

(** The result of [fetchHTML]: the page, or the error it throws, and the
    waits between attempts, in milliseconds, in the order they happen. *)
Record fetched : Type := MkFetched {
  answer : string + string;
  waits : list N
}.

(** The [for] loop of [fetchHTML] from [attempt] on, with [remaining]
    iterations to go ([remaining = retries + 1 - attempt]).  [axios_get i]
    is what the request of attempt [i] does. *)
Fixpoint fetch_loop (axios_get : nat → outcome) (url : string) (retries : nat)
    (attempt remaining : nat) (lastError : option string) : fetched :=
  match remaining with
  | O =>
      MkFetched
        (inr ("Failed to fetch HTML from " +:+ url +:+ " after "
              +:+ pretty (retries + 1) +:+ " attempts: "
              +:+ default "undefined" lastError))
        []
  | S remaining' =>
      match axios_get attempt with
      | Response data => MkFetched (inl data) []
      | Failure message =>
          let rest :=
            fetch_loop axios_get url retries (S attempt) remaining' (Some message) in
          if decide (attempt < retries) then
            MkFetched (answer rest) ((2 ^ N.of_nat attempt * 1000)%N :: waits rest)
          else rest
      end
  end.

(** [fetchHTML] with retries.  [retry] is [options?.retry]; the verbose
    log lines are left out. *)
Definition fetchHTML (axios_get : nat → outcome) (url : string)
    (retry : option nat) : fetched :=
  let retries := default 0 retry in
  fetch_loop axios_get url retries 0 (retries + 1) None.

Section with_builtins.
Context `{!Builtins}.

(** [extractData] of the scraper; [html] is the document [cheerio.load]
    built. *)
Definition extractData (html : CheerioAPI) (schema : gmap string string)
    : gmap string any :=
  map_fold
    (λ key selector (result : gmap string any),
       assign key
         match html selector with
         | None => VString ""
         | Some elements =>
             if bool_decide (1 < length elements) then
               VArray ((λ el, VString (trim (el_text el))) <$> elements)
             else VString (trim (text elements))
         end
         result)
    ∅ schema.

(** [extractDataWithStructuredSchema] *)
Definition extractDataWithStructuredSchema (html : CheerioAPI)
    (schema : ExtractorSchema) (now : string) : StructuredOutput :=
  extractStructuredData html schema now.

End with_builtins.

(** The descriptor [convertToStructuredSchema] gives every field:
    [{ type: defaultType, description: `Extracted from ${selector}`,
       nullable: true }]. *)
Definition field_descriptor (defaultType selector : string) : StructuredSchema :=
  {| type := defaultType; format := None;
     description := Some ("Extracted from " +:+ selector);
     nullable := Some true; enum := None; maxItems := None; minItems := None;
     properties := None; required := None; propertyOrdering := None;
     items := None; selector := None |}.

(** [convertToStructuredSchema] of the scraper.  [defaultType] is the
    optional second argument, ['string'] when it is left out. *)
Definition convertToStructuredSchema (schema : gmap string string)
    (defaultType : option string) : ExtractorSchema :=
  let defaultType := default "string" defaultType in
  let '(selectors, structure) :=
    map_fold
      (λ field selector (acc : gmap string string * gmap string StructuredSchema),
         (assign field selector acc.1,
          assign field (field_descriptor defaultType selector) acc.2))
      (∅, ∅) schema in
  {| selectors := selectors; structure := Some structure |}.

End Scraper.

(** ** [src/utils.ts] *)

Module Utils.

(** [getEnv]: [env] is [process.env]. *)
Definition getEnv (env : gmap string string) (key defaultValue : string) : string :=
  match env !! key with
  | Some value => if bool_decide (value = "") then defaultValue else value
  | None => defaultValue
  end.

(** [getGoogleApiKey] *)
Definition getGoogleApiKey (env : gmap string string)
    (configApiKey : option string) : string :=
  getEnv env "GOOGLE_AI_API_KEY" (default "" configApiKey).

(** [getGoogleModel] *)
Definition getGoogleModel (env : gmap string string)
    (defaultModel : option string) : string :=
  getEnv env "GOOGLE_AI_MODEL" (default "gemini-2.0-flash" defaultModel).

End Utils.

(** ** A reference implementation of the built-ins

    An implementation of [Builtins] over ASCII text, to run the embedding on
    examples.  White space is the ASCII white space, letters are the ASCII
    letters, and the two number conversions cover the integers: a string
    that is not a decimal integer literal converts to [NaN], and so does the
    text of a number that is not an integer.  With it comes an instance of
    [Prototypes] with the standard members.  No theorem below is about
    these instances except the examples that name them. *)

Module Reference.

Fixpoint trimStart (s : string) : string :=
  match s with
  | String c s' => if Ascii.is_space c then trimStart s' else s
  | EmptyString => EmptyString
  end.

Definition trim (s : string) : string :=
  String.rev (trimStart (String.rev (trimStart s))).

Definition lower (c : Ascii.ascii) : Ascii.ascii :=
  let n := Ascii.N_of_ascii c in
  if ((65 <=? n) && (n <=? 90))%N then Ascii.ascii_of_N (n + 32) else c.

Fixpoint toLowerCase (s : string) : string :=
  match s with
  | String c s' => String (lower c) (toLowerCase s')
  | EmptyString => EmptyString
  end.

(** The longest prefix of [s] whose characters satisfy [p], and the rest. *)
Fixpoint span (p : Ascii.ascii → bool) (s : string) : string * string :=
  match s with
  | String c s' =>
      if p c then let '(taken, rest) := span p s' in (String c taken, rest)
      else (EmptyString, s)
  | EmptyString => (EmptyString, EmptyString)
  end.

Definition is_digit (c : Ascii.ascii) : bool := bool_decide (is_Some (Ascii.is_nat c)).

(** [(\d+)\s+comments?] anchored at the start of [s]. *)
Definition match_comments_here (s : string) : option string :=
  let '(digits, rest) := span is_digit s in
  let '(spaces, rest) := span Ascii.is_space rest in
  if bool_decide (digits ≠ "") && bool_decide (spaces ≠ "") && String.prefix "comment" rest
  then Some digits else None.

Fixpoint match_comments (s : string) : option string :=
  match match_comments_here s with
  | Some digits => Some digits
  | None =>
      match s with
      | String _ s' => match_comments s'
      | EmptyString => None
      end
  end.

Definition number_of_N (n : N) : number :=
  PrimFloat.of_uint63 (Uint63.of_Z (Z.of_N n)).

Definition StringToNumber (s : string) : number :=
  match trim s with
  | EmptyString => PrimFloat.zero
  | String c digits as literal =>
      if bool_decide (String c EmptyString = "-") then
        if bool_decide (digits = "") then PrimFloat.nan
        else default PrimFloat.nan
               ((λ n, PrimFloat.opp (number_of_N n)) <$> decimal 0 digits)
      else default PrimFloat.nan (number_of_N <$> decimal 0 literal)
  end.

Definition NumberToString (n : number) : string :=
  match ToIntegerOrInfinity n with
  | Finite z =>
      if PrimFloat.eqb n (if (z <? 0)%Z
                          then PrimFloat.opp (number_of_N (Z.to_N (- z)))
                          else number_of_N (Z.to_N z))
      then pretty z else "NaN"
  | PlusInfinity => "Infinity"
  | MinusInfinity => "-Infinity"
  end.

Definition builtins : Builtins :=
  Build_Builtins trim toLowerCase StringToNumber NumberToString match_comments eq_refl.

(** A run time whose prototypes have the standard members and no other. *)
Definition prototypes : Prototypes :=
  Build_Prototypes
    (list_to_set Object_prototype_standard) (list_to_set Array_prototype_standard)
    (λ k, proj2 (elem_of_list_to_set k Object_prototype_standard))
    (λ k, proj2 (elem_of_list_to_set k Array_prototype_standard)).

End Reference.

(** ** Example inputs *)

Module Examples.

(** [{ "fields": { "title": ".t" } }] *)
Definition legacy_schema : any :=
  VObject {[ "fields" := VObject {[ "title" := VString ".t" ]} ]}.

(** [{ "selectors": { "title": ".t" }, "structure": null }] *)
Definition null_structure_schema : any :=
  VObject {[ "selectors" := VObject {[ "title" := VString ".t" ]};
             "structure" := VNull ]}.

(** [{ "selectors": "a", "structure": "b" }] *)
Definition scalar_schema : any :=
  VObject {[ "selectors" := VString "a"; "structure" := VString "b" ]}.

(** [{ "selectors": { "title": ".t" },
       "structure": { "title": { "type": "string", "nullable": false } } }] *)
Definition canonical_schema : any :=
  VObject {[ "selectors" := VObject {[ "title" := VString ".t" ]};
             "structure" :=
               VObject {[ "title" :=
                 VObject {[ "type" := VString "string";
                            "nullable" := VBoolean false ]} ]} ]}.


(** [{ type: 'object',
       properties: { a: { type: 'string' }, b: { type: 'string', required: ['b'] } } }] *)
Definition two_properties : StructuredSchema :=
  {| type := "object"; format := None; description := None; nullable := None;
     enum := None; maxItems := None; minItems := None;
     properties :=
       Some {[ "a" := descriptor "string";
               "b" := {| type := "string"; format := None; description := None;
                         nullable := None; enum := None; maxItems := None;
                         minItems := None; properties := None;
                         required := Some ["b"]; propertyOrdering := None;
                         items := None; selector := None |} ]};
     required := None; propertyOrdering := None; items := None;
     selector := None |}.

(** [{ type: 'string', nullable: n }] *)
Definition string_nullable (n : bool) : StructuredSchema :=
  {| type := "string"; format := None; description := None; nullable := Some n;
     enum := None; maxItems := None; minItems := None; properties := None;
     required := None; propertyOrdering := None; items := None;
     selector := None |}.

(** A document in which [.item] matches three nodes, [.t] one node, [a.buy]
    one anchor with [href="/x"], [.c] one node, any other selector nothing,
    and on which the selector [[] is a syntax error. *)
Definition page : CheerioAPI :=
  λ selector,
    if decide (selector = ".item") then
      Some [MkElement "a" None; MkElement " b " None; MkElement "c" None]
    else if decide (selector = ".t") then
      Some [MkElement "  Hello World  " None]
    else if decide (selector = "a.buy") then
      Some [MkElement "Buy now" (Some "/x")]
    else if decide (selector = ".c") then
      Some [MkElement " 42 comments " None]
    else if decide (selector = "[") then None
    else Some [].

(** [{ selectors: { title: '.t', productUrl: 'a.buy', numComments: '.c' },
       structure: { title: { type: 'string', nullable: false },
                    numComments: { type: 'number' } } }] *)
Definition end_to_end : ExtractorSchema :=
  {| selectors := {[ "title" := ".t"; "productUrl" := "a.buy"; "numComments" := ".c" ]};
     structure :=
       Some {[ "title" := string_nullable false;
               "numComments" := descriptor "number" ]} |}.

(** [{ type: 'array', maxItems: 3 }] *)
Definition at_most_three : StructuredSchema :=
  {| type := "array"; format := None; description := None; nullable := None;
     enum := None; maxItems := Some (number_of_nat 3); minItems := None;
     properties := None; required := None; propertyOrdering := None;
     items := None; selector := None |}.

(** [{ selectors: { title: '.t', items: '.item' },
       structure: { title: { type: 'string' } } }] *)
Definition partial_structure : ExtractorSchema :=
  {| selectors := {[ "title" := ".t"; "items" := ".item" ]};
     structure := Some {[ "title" := descriptor "string" ]} |}.

(** [{ title: '.t', broken: '[', items: '.item', missing: '.none' }] *)
Definition four_selectors : gmap string string :=
  {[ "title" := ".t"; "broken" := "["; "items" := ".item"; "missing" := ".none" ]}.

(** [{ selectors: { title: '.t', items: '.item' } }] *)
Definition no_structure : ExtractorSchema :=
  {| selectors := {[ "title" := ".t"; "items" := ".item" ]}; structure := None |}.


(** [{ "__proto__": ".t", "title": ".t" }], as [JSON.parse] gives it: with
    an own property [__proto__]. *)
Definition proto_selectors : gmap string string :=
  {[ "__proto__" := ".t"; "title" := ".t" ]}.

(** [{ "__proto__": "[", "title": ".t" }] *)
Definition broken_proto_selectors : gmap string string :=
  {[ "__proto__" := "["; "title" := ".t" ]}.

End Examples.

(** * Properties *)

(** Case analysis on the conditions an equation [_ = Some _] went through. *)
Ltac branch_cases H :=
  repeat match type of H with
  | context [if ?b then _ else _] => destruct b eqn:?
  | (?o ≫= _) = Some _ => destruct o; simpl in H; [|done]
  end.

(** ** Loops that write the slot named by the key they visit *)

Section loops.
Context {A B : Type}.
Implicit Types (f : string → A → gmap string B → gmap string B).

(** A loop body that leaves every slot but its own alone, and whose write
    does not depend on what the other slots hold, computes each slot of
    the result from the entry of that name only. *)
Lemma map_fold_own_slot f (m : gmap string A) (i : string) :
  (∀ k v r j, j ≠ k → f k v r !! j = r !! j) →
  (∀ k v r, r !! k = None → f k v r !! k = f k v ∅ !! k) →
  map_fold f ∅ m !! i = m !! i ≫= λ v, f i v ∅ !! i.
Proof.
  intros Hframe Hown. revert i.
  apply (map_fold_weak_ind (λ r m, ∀ i, r !! i = m !! i ≫= λ v, f i v ∅ !! i)).
  - intros i. by rewrite !lookup_empty.
  - intros k x m' r Hk IH i. destruct (decide (i = k)) as [->|Hne].
    + rewrite lookup_insert_eq. simpl. apply Hown. by rewrite IH, Hk.
    + rewrite lookup_insert_ne by done. rewrite Hframe by done. apply IH.
Qed.
End loops.

(** ** Assignment and inherited names *)


Lemma lookup_assign_ne {A} (k j : string) (v : A) (obj : gmap string A) :
  j ≠ k → assign k v obj !! j = obj !! j.
Proof. intros Hj. unfold assign. case_decide; by rewrite ?lookup_insert_ne. Qed.

Lemma lookup_assign {A} (k : string) (v : A) (obj : gmap string A) :
  k ≠ "__proto__" → assign k v obj !! k = Some v.
Proof. intros Hk. unfold assign. by rewrite decide_False, lookup_insert_eq. Qed.

(** A loop that assigns to the key it visits a value computed from the
    entry fills the slot of every key it visits but [__proto__]. *)
Lemma map_fold_assign {A B} (g : string → A → B) (m : gmap string A) (i : string) :
  map_fold (λ k v r, assign k (g k v) r) ∅ m !! i
  = if decide (i = "__proto__") then None else g i <$> m !! i.
Proof.
  rewrite map_fold_own_slot.
  - destruct (m !! i) as [v|]; simpl; [|by case_decide].
    unfold assign. case_decide; by rewrite ?lookup_insert_eq.
  - intros k v r j Hj. by apply lookup_assign_ne.
  - intros k v r Hk. unfold assign.
    case_decide; by rewrite ?lookup_insert_eq, ?Hk, ?lookup_empty.
Qed.

(** ** Loops with two accumulators *)

Section pair_loops.
Context {A B C : Type}.
Implicit Types
  (f : string → A → gmap string B * gmap string C → gmap string B * gmap string C).

(** The counterpart of [map_fold_own_slot] for the normaliser's loops,
    which fill [selectors] and [structure] side by side. *)
Lemma map_fold_pair_own_slot f (m : gmap string A) (i : string) :
  (∀ k v acc j, j ≠ k →
     (f k v acc).1 !! j = acc.1 !! j ∧ (f k v acc).2 !! j = acc.2 !! j) →
  (∀ k v acc, acc.1 !! k = None → acc.2 !! k = None →
     (f k v acc).1 !! k = (f k v (∅, ∅)).1 !! k
     ∧ (f k v acc).2 !! k = (f k v (∅, ∅)).2 !! k) →
  (map_fold f (∅, ∅) m).1 !! i = m !! i ≫= (λ v, (f i v (∅, ∅)).1 !! i)
  ∧ (map_fold f (∅, ∅) m).2 !! i = m !! i ≫= (λ v, (f i v (∅, ∅)).2 !! i).
Proof.
  intros Hframe Hown. revert i.
  apply (map_fold_weak_ind (λ acc m, ∀ i,
    acc.1 !! i = m !! i ≫= (λ v, (f i v (∅, ∅)).1 !! i)
    ∧ acc.2 !! i = m !! i ≫= (λ v, (f i v (∅, ∅)).2 !! i))).
  - intros i. simpl. by rewrite !lookup_empty.
  - intros k x m' acc Hk IH i. destruct (decide (i = k)) as [->|Hne].
    + rewrite lookup_insert_eq. simpl.
      destruct (IH k) as [IH1 IH2]. rewrite Hk in IH1, IH2. by apply Hown.
    + rewrite lookup_insert_ne by done.
      destruct (Hframe k x acc i Hne) as [-> ->]. apply IH.
Qed.
End pair_loops.

Lemma append_nil_r (s : string) : s +:+ "" = s.
Proof. induction s as [|c s IH]; [done|]. rewrite <- IH at 2. done. Qed.

(** ** The output assembler and the metadata projection *)

Lemma addMetadata_lookup_metadata data now :
  addMetadata data now !! "_metadata"
  = Some (VObject {[ "schemaVersion" := VString "1.0"; "extractedAt" := VString now ]}).
Proof. unfold addMetadata. by rewrite lookup_insert_eq. Qed.

Lemma addMetadata_lookup_ne data now k :
  k ≠ "_metadata" → addMetadata data now !! k = data !! k.
Proof. intros Hk. unfold addMetadata. by rewrite lookup_insert_ne. Qed.

(** C8: every output of the assembler carries [_metadata.schemaVersion =
    "1.0"], and excluding the metadata removes the [_metadata] key and
    leaves the value of every other key as it was. *)
Theorem C8_metadata_version_and_exclusion `{!Builtins}
    (html : CheerioAPI) (schema : ExtractorSchema) (data : gmap string any)
    (now : string) (out : StructuredOutput) :
  get (get (VObject (addMetadata data now)) "_metadata") "schemaVersion"
    = VString "1.0"
  ∧ get (get (VObject (extractStructuredData html schema now)) "_metadata")
      "schemaVersion" = VString "1.0"
  ∧ excludeMetadata out !! "_metadata" = None
  ∧ ∀ k, k ≠ "_metadata" → excludeMetadata out !! k = out !! k.
Proof.
  split_and!.
  - simpl. by rewrite addMetadata_lookup_metadata.
  - unfold extractStructuredData. simpl.
    destruct (structure schema); by rewrite addMetadata_lookup_metadata.
  - apply lookup_delete_eq.
  - intros k Hk. unfold excludeMetadata. by rewrite lookup_delete_ne.
Qed.

Lemma C8_witness :
  excludeMetadata
    (addMetadata {[ "title" := VString "Hello" ]} "2024-01-01T00:00:00.000Z")
    !! "title" = Some (VString "Hello").
Proof.
  destruct (C8_metadata_version_and_exclusion (H := Reference.builtins)
              Examples.page Examples.partial_structure ∅ ""
              (addMetadata {[ "title" := VString "Hello" ]} "2024-01-01T00:00:00.000Z"))
    as (_ & _ & _ & Hrest).
  rewrite Hrest by done. reflexivity.
Defined.

(** ** The type coercer *)

Section coercer.
Context `{!Builtins}.

(** C9: a descriptor whose [type] is none of the five tags the coercer
    switches on (the tag ["null"] is one such) leaves the raw value as it
    is. *)
Theorem C9_unknown_type_is_identity (value : any) (schema : StructuredSchema) :
  type schema ∉ ["string"; "number"; "boolean"; "array"; "object"] →
  convertToType value schema = value.
Proof.
  intros Htag. destruct schema as [t ? ? ? ? ? ? ? ? ? ? ?]. simpl in *.
  repeat case_decide; try done; exfalso; apply Htag; subst t; set_solver.
Qed.

(** The loop of the [object] case writes, in the slot of each declared
    property but [__proto__], the coerced raw member, when that member is
    defined or the property's own descriptor lists the property's name as
    required. *)
Lemma object_loop_lookup (raw : any) (props : gmap string StructuredSchema)
    (propName : string) :
  map_fold
    (λ propName propSchema (result : gmap string any),
       if negb (is_undefined (get raw propName))
          || required_includes propSchema propName
       then assign propName (convertToType (get raw propName) propSchema) result
       else result)
    ∅ props !! propName
  = if decide (propName = "__proto__") then None
    else
      props !! propName ≫= λ propSchema,
        if negb (is_undefined (get raw propName))
           || required_includes propSchema propName
        then Some (convertToType (get raw propName) propSchema)
        else None.
Proof.
  rewrite map_fold_own_slot.
  - destruct (props !! propName) as [propSchema|]; simpl; [|by case_decide].
    unfold assign.
    destruct (_ || _); repeat case_decide; by rewrite ?lookup_insert_eq.
  - intros k v r j Hj. destruct (_ || _); [by apply lookup_assign_ne|done].
  - intros k v r Hk. unfold assign.
    destruct (_ || _); repeat case_decide;
      by rewrite ?lookup_insert_eq, ?Hk, ?lookup_empty.
Qed.


(** What the loop of [validateAndStructure] leaves in one slot. *)
Lemma validateAndStructure_lookup (data : gmap string any)
    (schema : gmap string StructuredSchema) (field : string) :
  validateAndStructure data schema !! field
  = schema !! field ≫= λ schemaType, validate_step data field schemaType ∅ !! field.
Proof.
  unfold validateAndStructure. apply map_fold_own_slot.
  - intros k v r j Hj. unfold validate_step.
    repeat case_match; by rewrite ?lookup_insert_ne.
  - intros k v r Hk. unfold validate_step.
    repeat case_match; by rewrite ?lookup_insert_eq, ?Hk, ?lookup_empty.
Qed.

(** C2, as the code has it: a field whose raw value is [null] is present,
    with value [null], when its descriptor says [nullable: true], and is
    absent when the descriptor says [nullable: false] or says nothing. *)
Theorem C2_nullable_policy (data : gmap string any)
    (schema : gmap string StructuredSchema) (field : string)
    (schemaType : StructuredSchema) :
  data !! field = Some VNull →
  schema !! field = Some schemaType →
  (nullable schemaType = Some true →
     validateAndStructure data schema !! field = Some VNull)
  ∧ (nullable schemaType = Some false ∨ nullable schemaType = None →
     validateAndStructure data schema !! field = None).
Proof.
  intros Hraw Hschema. rewrite validateAndStructure_lookup, Hschema. simpl.
  unfold validate_step. rewrite Hraw. simpl. split.
  - intros ->. simpl. by rewrite lookup_insert_eq.
  - intros [-> | ->]; done.
Qed.

End coercer.

Lemma C9_witness :
  convertToType (H := Reference.builtins) (VString "42") (descriptor "null")
  = VString "42".
Proof.
  apply (C9_unknown_type_is_identity (H := Reference.builtins)).
  simpl. apply (bool_decide_unpack _). vm_compute. exact I.
Defined.



Lemma C2_witness :
  validateAndStructure (H := Reference.builtins)
    {[ "price" := VNull ]} {[ "price" := Examples.string_nullable true ]} !! "price"
  = Some VNull.
Proof.
  apply (C2_nullable_policy (H := Reference.builtins)
           {[ "price" := VNull ]} {[ "price" := Examples.string_nullable true ]}
           "price" (Examples.string_nullable true));
    reflexivity.
Defined.

(** A descriptor that does not mention [nullable] drops a [null] field. *)
Lemma C2_counterexample :
  nullable (descriptor "string") = None
  ∧ ({[ "price" := VNull ]} : gmap string any) !! "price" = Some VNull
  ∧ validateAndStructure (H := Reference.builtins)
      {[ "price" := VNull ]} {[ "price" := descriptor "string" ]} !! "price"
    = None.
Proof. split_and!; reflexivity. Qed.

(** ** The field extractor *)

Section extractor.
Context `{!Builtins}.

(** The first loop fills the slot of every field of [selectors] but
    [__proto__]. *)
Lemma rawData_lookup (html : CheerioAPI) (schema : gmap string string)
    (fieldName : string) :
  rawData html schema !! fieldName
  = if decide (fieldName = "__proto__") then None
    else extract_field html fieldName <$> schema !! fieldName.
Proof. apply (map_fold_assign (extract_field html)). Qed.

(** A field that the extractor takes for a URL or comment field is not
    named [__proto__]. *)
Lemma special_field_not_proto (fieldName sub : string) :
  includes "__proto__" sub = false →
  includes (toLowerCase fieldName) sub = true →
  fieldName ≠ "__proto__".
Proof.
  intros Hsub Hfield ->. rewrite toLowerCase___proto__ in Hfield. congruence.
Qed.

(** C6: for a field that is neither a URL field nor a comment field, and
    whose selector evaluates, the raw value is the array of the trimmed
    texts, in document order, when more than one node matches, the
    trimmed text of the node when exactly one matches, and [null] when
    none does; [extractData] does the same.  That is so for every field
    name but one: a field named [__proto__] gets no raw value in either,
    however many nodes its selector matches. *)
Theorem C6_match_count (html : CheerioAPI) (schema : gmap string string)
    (fieldName selector : string) (element : list Element) :
  schema !! fieldName = Some selector →
  html selector = Some element →
  includes (toLowerCase fieldName) "url" = false →
  includes (toLowerCase fieldName) "comment" = false →
  let expected :=
    match element with
    | [] => VNull
    | [el] => VString (trim (el_text el))
    | _ => VArray ((λ el, VString (trim (el_text el))) <$> element)
    end in
  (fieldName ≠ "__proto__" →
     rawData html schema !! fieldName = Some expected
     ∧ extractData html schema !! fieldName = Some expected)
  ∧ (fieldName = "__proto__" →
     rawData html schema !! fieldName = None
     ∧ extractData html schema !! fieldName = None).
Proof.
  intros Hfield Hhtml Hurl Hcomment expected.
  unfold extractData. rewrite rawData_lookup, map_fold_assign. split.
  - intros Hname. rewrite !decide_False, Hfield by done. simpl. split; f_equal.
    + unfold extract_field. rewrite Hhtml, Hurl, Hcomment.
      destruct element as [|el [|el' rest]]; simpl; by rewrite ?append_nil_r.
    + rewrite Hhtml.
      destruct element as [|el [|el' rest]]; simpl; by rewrite ?append_nil_r.
  - intros ->. done.
Qed.

(** C7: when the selector of one field raises, the raw data still has an
    entry for every field of [selectors] that is not named [__proto__];
    the failing field holds [null], and every other field holds what it
    holds when the failing field is not in the schema at all.  A field
    named [__proto__], failing or not, has no entry. *)
Theorem C7_selector_failure_is_local (html : CheerioAPI)
    (schema : gmap string string) (fieldName selector : string) :
  schema !! fieldName = Some selector →
  html selector = None →
  (fieldName ≠ "__proto__" → rawData html schema !! fieldName = Some VNull)
  ∧ (∀ other otherSelector,
       schema !! other = Some otherSelector →
       other ≠ "__proto__" →
       rawData html schema !! other
       = Some (extract_field html other otherSelector))
  ∧ (∀ other,
       other ≠ fieldName →
       rawData html schema !! other
       = rawData html (delete fieldName schema) !! other)
  ∧ rawData html schema !! "__proto__" = None.
Proof.
  intros Hfield Hhtml. split_and!.
  - intros Hname. rewrite rawData_lookup, decide_False, Hfield by done. simpl.
    unfold extract_field. by rewrite Hhtml.
  - intros other otherSelector Hother Hname.
    by rewrite rawData_lookup, decide_False, Hother.
  - intros other Hother. by rewrite !rawData_lookup, lookup_delete_ne.
  - by rewrite rawData_lookup.
Qed.

(** C4, as the code has it: when the schema has a [structure], a field of
    [selectors] that [structure] does not declare is left out of the
    output; the raw value reaches the output unchanged only when the
    schema has no [structure] at all (this for a field not named
    [__proto__]). *)
Theorem C4_undeclared_field (html : CheerioAPI) (schema : ExtractorSchema)
    (now fieldName selector : string) :
  selectors schema !! fieldName = Some selector →
  fieldName ≠ "_metadata" →
  match structure schema with
  | Some declared =>
      declared !! fieldName = None →
      extractStructuredData html schema now !! fieldName = None
  | None =>
      fieldName ≠ "__proto__" →
      extractStructuredData html schema now !! fieldName
      = Some (extract_field html fieldName selector)
  end.
Proof.
  intros Hfield Hname. unfold extractStructuredData.
  destruct (structure schema) as [declared|].
  - intros Hundeclared.
    by rewrite addMetadata_lookup_ne, validateAndStructure_lookup, Hundeclared.
  - intros Hproto.
    by rewrite addMetadata_lookup_ne, rawData_lookup, decide_False, Hfield.
Qed.

End extractor.

Lemma C6_witness :
  rawData (H := Reference.builtins) Examples.page Examples.four_selectors !! "items"
  = Some (VArray [VString "a"; VString "b"; VString "c"])
  ∧ rawData (H := Reference.builtins) Examples.page Examples.four_selectors !! "title"
    = Some (VString "Hello World")
  ∧ rawData (H := Reference.builtins) Examples.page Examples.four_selectors !! "missing"
    = Some VNull.
Proof.
  split_and!.
  - apply (C6_match_count (H := Reference.builtins) Examples.page
             Examples.four_selectors "items" ".item"
             [MkElement "a" None; MkElement " b " None; MkElement "c" None]);
      [reflexivity.. | done].
  - apply (C6_match_count (H := Reference.builtins) Examples.page
             Examples.four_selectors "title" ".t" [MkElement "  Hello World  " None]);
      [reflexivity.. | done].
  - apply (C6_match_count (H := Reference.builtins) Examples.page
             Examples.four_selectors "missing" ".none" []);
      [reflexivity.. | done].
Defined.

(** A field named [__proto__] whose selector matches one node: the claim
    promises the trimmed text of the node as its raw value, and the raw
    data has no entry for it; the field beside it is extracted. *)
Lemma C6_failing_input :
  Examples.proto_selectors !! "__proto__" = Some ".t"
  ∧ Examples.page ".t" = Some [MkElement "  Hello World  " None]
  ∧ includes (toLowerCase (Builtins := Reference.builtins) "__proto__") "url" = false
  ∧ includes (toLowerCase (Builtins := Reference.builtins) "__proto__") "comment" = false
  ∧ rawData (H := Reference.builtins) Examples.page Examples.proto_selectors
    = {[ "title" := VString "Hello World" ]}
  ∧ rawData (H := Reference.builtins) Examples.page Examples.proto_selectors
      !! "__proto__" = None
  ∧ extractData (H := Reference.builtins) Examples.page Examples.proto_selectors
      !! "__proto__" = None.
Proof. split_and!; reflexivity. Qed.

Lemma C7_witness :
  rawData (H := Reference.builtins) Examples.page Examples.four_selectors !! "broken"
  = Some VNull
  ∧ rawData (H := Reference.builtins) Examples.page Examples.four_selectors !! "title"
    = Some (VString "Hello World").
Proof.
  destruct (C7_selector_failure_is_local (H := Reference.builtins) Examples.page
              Examples.four_selectors "broken" "[" eq_refl eq_refl)
    as (Hnull & Hothers & _).
  split; [by apply Hnull|]. rewrite (Hothers "title" ".t") by done. reflexivity.
Defined.

(** A field named [__proto__] whose selector raises: the claim promises
    [null] as its raw value, and the raw data has no entry for it. *)
Lemma C7_failing_input :
  Examples.broken_proto_selectors !! "__proto__" = Some "["
  ∧ Examples.page "[" = None
  ∧ rawData (H := Reference.builtins) Examples.page Examples.broken_proto_selectors
    = {[ "title" := VString "Hello World" ]}
  ∧ rawData (H := Reference.builtins) Examples.page Examples.broken_proto_selectors
      !! "__proto__" = None.
Proof. split_and!; reflexivity. Qed.

Lemma C4_witness :
  extractStructuredData (H := Reference.builtins) Examples.page
    Examples.partial_structure "2024-01-01T00:00:00.000Z" !! "items" = None
  ∧ extractStructuredData (H := Reference.builtins) Examples.page
      Examples.no_structure "2024-01-01T00:00:00.000Z" !! "items"
    = Some (VArray [VString "a"; VString "b"; VString "c"]).
Proof.
  split.
  - apply (C4_undeclared_field (H := Reference.builtins) Examples.page
             Examples.partial_structure "2024-01-01T00:00:00.000Z" "items" ".item");
      [reflexivity | done | reflexivity].
  - apply (C4_undeclared_field (H := Reference.builtins) Examples.page
             Examples.no_structure "2024-01-01T00:00:00.000Z" "items" ".item");
      [reflexivity | done | done].
Defined.

(** [items] is extracted, and is not in the output: the schema declares a
    [structure], and [items] is not in it. *)
Lemma C4_counterexample :
  selectors Examples.partial_structure !! "items" = Some ".item"
  ∧ structure Examples.partial_structure = Some {[ "title" := descriptor "string" ]}
  ∧ rawData (H := Reference.builtins) Examples.page
      (selectors Examples.partial_structure) !! "items"
    = Some (VArray [VString "a"; VString "b"; VString "c"])
  ∧ extractStructuredData (H := Reference.builtins) Examples.page
      Examples.partial_structure "2024-01-01T00:00:00.000Z" !! "items" = None.
Proof. split_and!; reflexivity. Qed.

(** ** The schema normaliser *)

Lemma Object_entries_truthy (v : any) :
  truthy v = true → is_Some (Object_entries v).
Proof. destruct v; simpl; try done; eauto. Qed.

Lemma truthy_get_object (schema : any) (k : string) :
  k ≠ "length" → array_index k = None →
  truthy (get schema k) = true →
  ∃ m v, schema = VObject m ∧ m !! k = Some v ∧ truthy v = true.
Proof.
  intros Hlength Hindex. destruct schema as [| | | | |l|m]; simpl; try done.
  - rewrite decide_False by done. by rewrite Hindex.
  - rewrite decide_False by done. by rewrite Hindex.
  - destruct (m !! k) as [v|] eqn:Hk; [|done]. eauto.
Qed.

(** A freshly built [{ selectors, structure }] is already canonical: both
    entries are objects, and objects are truthy even when empty. *)
Lemma loadStructuredSchema_ExtractorSchema_of (s t : gmap string any) :
  loadStructuredSchema (ExtractorSchema_of s t) = Some (ExtractorSchema_of s t).
Proof. reflexivity. Qed.

Lemma convertToStructuredSchema_shape (schema result : any) :
  convertToStructuredSchema schema = Some result →
  ∃ s t, result = ExtractorSchema_of s t.
Proof.
  unfold convertToStructuredSchema.
  destruct (Object_entries schema) as [entries|]; [simpl|done].
  destruct (map_fold convert_step (∅, ∅) entries) as [s t]. intros [= <-]. eauto.
Qed.

Lemma normaliser_loop_shape (entries : gmap string any)
    (step : string → any → gmap string any * gmap string any
            → gmap string any * gmap string any) (result : any) :
  (let '(selectors, structure) := map_fold step (∅, ∅) entries in
   Some (ExtractorSchema_of selectors structure)) = Some result →
  ∃ s t, result = ExtractorSchema_of s t.
Proof.
  destruct (map_fold step (∅, ∅) entries) as [s t]. intros [= <-]. eauto.
Qed.

Lemma parseStructuredSchema_shape (schema result : any) :
  parseStructuredSchema schema = Some result →
  (result = schema
   ∧ truthy (get schema "selectors") = true ∧ truthy (get schema "structure") = true)
  ∨ ∃ s t, result = ExtractorSchema_of s t.
Proof.
  unfold parseStructuredSchema. intros Hresult.
  destruct schema; try done; branch_cases Hresult;
    first [ left; simplify_eq; by rewrite andb_true_iff in *
          | right; simplify_eq;
            eauto using normaliser_loop_shape, convertToStructuredSchema_shape ].
Qed.

Lemma loadStructuredSchema_shape (schema result : any) :
  loadStructuredSchema schema = Some result →
  (result = schema
   ∧ truthy (get schema "selectors") = true ∧ truthy (get schema "structure") = true)
  ∨ ∃ s t, result = ExtractorSchema_of s t.
Proof.
  unfold loadStructuredSchema. destruct (isStructuredSchema schema).
  - apply parseStructuredSchema_shape.
  - right. by eapply convertToStructuredSchema_shape.
Qed.

(** An object whose [selectors] and [structure] are both truthy is
    returned as it is. *)
Lemma loadStructuredSchema_canonical (schema : any) :
  truthy (get schema "selectors") = true →
  truthy (get schema "structure") = true →
  loadStructuredSchema schema = Some schema.
Proof.
  intros Hsel Hstr.
  destruct (truthy_get_object schema "selectors") as (m & v & -> & _); [done..|].
  unfold loadStructuredSchema, isStructuredSchema, parseStructuredSchema.
  rewrite Hsel, Hstr. simpl. by rewrite orb_true_r.
Qed.

Lemma convertToStructuredSchema_total (schema : any) :
  is_Some (Object_entries schema) → is_Some (convertToStructuredSchema schema).
Proof.
  intros [entries Hentries]. unfold convertToStructuredSchema.
  rewrite Hentries. simpl. destruct (map_fold _ _ _). eauto.
Qed.

(** Normalisation answers on every parsed JSON value but [null]. *)
Lemma loadStructuredSchema_total (schema : any) :
  schema ≠ VUndefined → schema ≠ VNull → is_Some (loadStructuredSchema schema).
Proof.
  intros Hundefined Hnull.
  assert (is_Some (convertToStructuredSchema schema)) as Hconvert.
  { apply convertToStructuredSchema_total. destruct schema; simpl; eauto; done. }
  unfold loadStructuredSchema. destruct (isStructuredSchema schema); [|done].
  unfold parseStructuredSchema.
  destruct schema; try done;
    repeat match goal with
    | |- is_Some (if ?b then _ else _) => destruct b eqn:?
    | H : truthy ?v = true |- is_Some (Object_entries ?v ≫= _) =>
        destruct (Object_entries_truthy v H) as [? ->]; simpl
    | |- is_Some (let '(_, _) := ?p in _) => destruct p
    end; eauto.
Qed.

(** C10, as the code has it: every result of normalisation is an object
    with a [selectors] and a [structure] entry, both truthy.  In every
    branch but the already-canonical one the two entries are maps built by
    the normaliser; the already-canonical branch returns its input, whose
    two entries are whatever truthy values the input carried. *)
Theorem C10_result_has_selectors_and_structure (schema result : any) :
  loadStructuredSchema schema = Some result →
  ∃ (m : gmap string any) (selectors structure : any),
    result = VObject m
    ∧ m !! "selectors" = Some selectors
    ∧ m !! "structure" = Some structure
    ∧ truthy selectors = true
    ∧ truthy structure = true
    ∧ (result = schema ∨ ∃ s t, selectors = VObject s ∧ structure = VObject t).
Proof.
  intros Hresult.
  destruct (loadStructuredSchema_shape _ _ Hresult)
    as [(-> & Hsel & Hstr) | (s & t & ->)].
  - destruct (truthy_get_object schema "selectors") as (m & v & -> & Hm & Hv);
      [done..|].
    simpl in Hstr. destruct (m !! "structure") as [w|] eqn:Hw; [|done].
    exists m, v, w. split_and!; auto.
  - exists {[ "selectors" := VObject s; "structure" := VObject t ]},
      (VObject s), (VObject t).
    split_and!; try done. right. eauto.
Qed.

Lemma C10_witness :
  ∃ (m : gmap string any) (selectors structure : any),
    ExtractorSchema_of {[ "title" := VString ".t" ]}
      {[ "title" := string_descriptor ".t" ]} = VObject m
    ∧ m !! "selectors" = Some selectors
    ∧ m !! "structure" = Some structure
    ∧ truthy selectors = true
    ∧ truthy structure = true
    ∧ (ExtractorSchema_of {[ "title" := VString ".t" ]}
         {[ "title" := string_descriptor ".t" ]}
       = VObject {[ "title" := VString ".t" ]}
       ∨ ∃ s t, selectors = VObject s ∧ structure = VObject t).
Proof.
  apply (C10_result_has_selectors_and_structure
           (VObject {[ "title" := VString ".t" ]})).
  reflexivity.
Defined.

(** The already-canonical branch hands back [selectors] and [structure]
    unvalidated: here both are strings, not maps. *)
Lemma C10_counterexample :
  loadStructuredSchema Examples.scalar_schema = Some Examples.scalar_schema
  ∧ get Examples.scalar_schema "selectors" = VString "a"
  ∧ get Examples.scalar_schema "structure" = VString "b".
Proof. split_and!; reflexivity. Qed.

(** C5, as the code has it: normalising a result of normalisation gives
    that result back, and an input whose [selectors] and [structure] are
    both truthy is returned as it is. *)
Theorem C5_normalisation_idempotent (schema : any) :
  loadStructuredSchema schema ≫= loadStructuredSchema = loadStructuredSchema schema
  ∧ (∀ result,
       loadStructuredSchema schema = Some result →
       loadStructuredSchema result = Some result)
  ∧ (truthy (get schema "selectors") = true →
     truthy (get schema "structure") = true →
     loadStructuredSchema schema = Some schema).
Proof.
  assert (∀ result,
    loadStructuredSchema schema = Some result →
    loadStructuredSchema result = Some result) as Hfixed.
  { intros result Hresult.
    destruct (loadStructuredSchema_shape _ _ Hresult)
      as [(-> & Hsel & Hstr) | (s & t & ->)].
    - by apply loadStructuredSchema_canonical.
    - apply loadStructuredSchema_ExtractorSchema_of. }
  split_and!.
  - destruct (loadStructuredSchema schema) as [result|] eqn:Hresult; [simpl|done].
    by apply Hfixed.
  - exact Hfixed.
  - apply loadStructuredSchema_canonical.
Qed.

Lemma C5_witness :
  loadStructuredSchema Examples.canonical_schema = Some Examples.canonical_schema
  ∧ loadStructuredSchema (VObject {[ "title" := VString ".t" ]})
      ≫= loadStructuredSchema
    = Some (ExtractorSchema_of {[ "title" := VString ".t" ]}
              {[ "title" := string_descriptor ".t" ]}).
Proof.
  split.
  - apply (C5_normalisation_idempotent Examples.canonical_schema); reflexivity.
  - rewrite (proj1 (C5_normalisation_idempotent (VObject {[ "title" := VString ".t" ]}))).
    reflexivity.
Defined.

(** An object that has both keys, one of them with a falsy value, is not
    returned as it is: it falls through to the flat-map conversion, which
    finds no string entry and returns two empty maps. *)
Lemma C5_counterexample :
  get Examples.null_structure_schema "selectors"
    = VObject {[ "title" := VString ".t" ]}
  ∧ (∃ m, Examples.null_structure_schema = VObject m
          ∧ m !! "structure" = Some VNull)
  ∧ loadStructuredSchema Examples.null_structure_schema
    = Some (ExtractorSchema_of ∅ ∅)
  ∧ ExtractorSchema_of ∅ ∅ ≠ Examples.null_structure_schema.
Proof.
  split_and!; [reflexivity | by eexists | reflexivity |].
  intros Heq. apply (f_equal (λ schema, get schema "structure")) in Heq.
  discriminate Heq.
Qed.

(** Each loop body of the normaliser touches the slot of its own key only. *)
Ltac step_frame step :=
  intros ? ? [? ?] ? ?; unfold step; repeat case_match; simpl;
  by rewrite ?lookup_assign_ne.

Ltac step_own step :=
  intros ? ? [? ?] Hown1 Hown2; simpl in Hown1, Hown2; unfold step, assign;
  repeat case_match; simpl;
  by rewrite ?lookup_insert_eq, ?Hown1, ?Hown2, ?lookup_empty.

Lemma properties_loop_lookup (props : gmap string any) (field : string) :
  (map_fold properties_step (∅, ∅) props).1 !! field
    = props !! field ≫= (λ v, (properties_step field v (∅, ∅)).1 !! field)
  ∧ (map_fold properties_step (∅, ∅) props).2 !! field
    = props !! field ≫= (λ v, (properties_step field v (∅, ∅)).2 !! field).
Proof.
  apply map_fold_pair_own_slot; [step_frame properties_step | step_own properties_step].
Qed.

Lemma convert_loop_lookup (entries : gmap string any) (field : string) :
  (map_fold convert_step (∅, ∅) entries).1 !! field
    = entries !! field ≫= (λ v, (convert_step field v (∅, ∅)).1 !! field)
  ∧ (map_fold convert_step (∅, ∅) entries).2 !! field
    = entries !! field ≫= (λ v, (convert_step field v (∅, ∅)).2 !! field).
Proof.
  apply map_fold_pair_own_slot; [step_frame convert_step | step_own convert_step].
Qed.

Lemma fields_loop_lookup (fields : gmap string any) (field : string) :
  (map_fold fields_step (∅, ∅) fields).1 !! field
    = fields !! field ≫= (λ v, (fields_step field v (∅, ∅)).1 !! field)
  ∧ (map_fold fields_step (∅, ∅) fields).2 !! field
    = fields !! field ≫= (λ v, (fields_step field v (∅, ∅)).2 !! field).
Proof.
  apply map_fold_pair_own_slot; [step_frame fields_step | step_own fields_step].
Qed.

(** No loop body of the normaliser gives [selectors] or [structure] an
    entry named [__proto__]. *)
Ltac step_proto step :=
  intros ?; unfold step; repeat case_match; split; reflexivity.

Lemma convert_step_proto (v : any) :
  (convert_step "__proto__" v (∅, ∅)).1 !! "__proto__" = None
  ∧ (convert_step "__proto__" v (∅, ∅)).2 !! "__proto__" = None.
Proof. revert v. step_proto convert_step. Qed.

Lemma properties_step_proto (v : any) :
  (properties_step "__proto__" v (∅, ∅)).1 !! "__proto__" = None
  ∧ (properties_step "__proto__" v (∅, ∅)).2 !! "__proto__" = None.
Proof. revert v. step_proto properties_step. Qed.

Lemma fields_step_proto (v : any) :
  (fields_step "__proto__" v (∅, ∅)).1 !! "__proto__" = None
  ∧ (fields_step "__proto__" v (∅, ∅)).2 !! "__proto__" = None.
Proof. revert v. step_proto fields_step. Qed.

(** X2: the legacy branch of [parseStructuredSchema], reached directly,
    does turn each string entry of [fields] into a selector and a string
    descriptor, except an entry named [__proto__], which leaves no trace
    in either map. *)
Lemma parseStructuredSchema_legacy_fields (m fields : gmap string any) :
  m !! "selectors" = None → m !! "structure" = None →
  m !! "type" = None → m !! "properties" = None →
  m !! "fields" = Some (VObject fields) →
  ∃ selectors structure,
    parseStructuredSchema (VObject m) = Some (ExtractorSchema_of selectors structure)
    ∧ (∀ field s,
         fields !! field = Some (VString s) →
         field ≠ "__proto__" →
         selectors !! field = Some (VString s)
         ∧ structure !! field = Some (string_descriptor s))
    ∧ selectors !! "__proto__" = None
    ∧ structure !! "__proto__" = None.
Proof.
  intros Hsel Hstr Htype Hprops Hfields. unfold parseStructuredSchema. simpl.
  rewrite Hsel, Hstr, Htype, Hprops, Hfields. simpl.
  pose proof (fields_loop_lookup fields) as Hloop.
  destruct (map_fold fields_step (∅, ∅) fields) as [selectors structure].
  exists selectors, structure. split; [done|]. simpl in Hloop. split_and!.
  - intros field s Hfield Hname. destruct (Hloop field) as [-> ->].
    rewrite Hfield. simpl. by rewrite !lookup_assign.
  - destruct (Hloop "__proto__") as [-> _].
    destruct (fields !! "__proto__") as [v|]; [|done]. apply fields_step_proto.
  - destruct (Hloop "__proto__") as [_ ->].
    destruct (fields !! "__proto__") as [v|]; [|done]. apply fields_step_proto.
Qed.

(** C1, at the entry point: an object that has [fields] and nothing else
    does not reach the legacy branch.  [isStructuredSchema] answers no,
    the flat-map conversion runs on the top level, where the one entry
    [fields] is not a string, and the result has no selector and no
    descriptor at all. *)
Theorem C1_legacy_fields_not_converted (fields : gmap string any) :
  isStructuredSchema (VObject {[ "fields" := VObject fields ]}) = false
  ∧ loadStructuredSchema (VObject {[ "fields" := VObject fields ]})
    = Some (ExtractorSchema_of ∅ ∅).
Proof.
  split; [reflexivity|].
  unfold loadStructuredSchema, convertToStructuredSchema. simpl.
  by rewrite map_fold_singleton.
Qed.

Lemma C1_failing_input :
  loadStructuredSchema Examples.legacy_schema = Some (ExtractorSchema_of ∅ ∅)
  ∧ get (ExtractorSchema_of ∅ ∅) "selectors" = VObject ∅
  ∧ parseStructuredSchema Examples.legacy_schema
    = Some (ExtractorSchema_of {[ "title" := VString ".t" ]}
              {[ "title" := string_descriptor ".t" ]}).
Proof. split_and!; reflexivity. Qed.


(** ** The scenarios of the specification, run on the embedding *)

Example flat_schema_round_trip :
  loadStructuredSchema (VObject {[ "title" := VString ".foo" ]})
  = Some (ExtractorSchema_of {[ "title" := VString ".foo" ]}
            {[ "title" := string_descriptor ".foo" ]}).
Proof. reflexivity. Qed.

(** A field named [__proto__] does not survive the conversion. *)
Example flat_schema_proto_field :
  loadStructuredSchema
    (VObject {[ "__proto__" := VString ".t"; "title" := VString ".t" ]})
  = Some (ExtractorSchema_of {[ "title" := VString ".t" ]}
            {[ "title" := string_descriptor ".t" ]}).
Proof. reflexivity. Qed.

Example url_and_comment_fields :
  rawData (H := Reference.builtins) Examples.page
    (selectors Examples.end_to_end)
  = {[ "title" := VString "Hello World"; "productUrl" := VString "/x";
       "numComments" := VString "42" ]}.
Proof. reflexivity. Qed.

Example numeric_coercion_default :
  convertToType (H := Reference.builtins) (VString "not-a-number") (descriptor "number")
  = VNumber PrimFloat.zero.
Proof. reflexivity. Qed.

Example maxItems_truncation :
  convertToType (H := Reference.builtins)
    (VArray [VString "1"; VString "2"; VString "3"; VString "4"; VString "5"])
    Examples.at_most_three
  = VArray [VString "1"; VString "2"; VString "3"].
Proof. reflexivity. Qed.

Example end_to_end_scenario :
  extractStructuredData (H := Reference.builtins) Examples.page Examples.end_to_end
    "2024-01-01T00:00:00.000Z"
  = {[ "title" := VString "Hello World";
       "numComments" := VNumber (number_of_nat 42);
       "_metadata" :=
         VObject {[ "schemaVersion" := VString "1.0";
                    "extractedAt" := VString "2024-01-01T00:00:00.000Z" ]} ]}.
Proof. vm_compute. reflexivity. Qed.

(** ** Two more facts about the normaliser *)

(** The flat-map conversion reads the top level only: whatever it puts in
    [selectors] or [structure] is named by a top-level key of its input. *)
Lemma convert_loop_top_level (entries : gmap string any) (field : string) :
  entries !! field = None →
  (map_fold convert_step (∅, ∅) entries).1 !! field = None
  ∧ (map_fold convert_step (∅, ∅) entries).2 !! field = None.
Proof.
  intros Hfield. destruct (convert_loop_lookup entries field) as [-> ->].
  by rewrite Hfield.
Qed.

(** The defect behind C1 on every object of the legacy shape: the entry
    point skips the legacy branch, and a field named in [fields] gets a
    selector only if the top level happens to have a key of that name. *)
Lemma loadStructuredSchema_skips_fields (m fields : gmap string any) (field : string) :
  m !! "selectors" = None → m !! "structure" = None →
  m !! "type" = None → m !! "properties" = None →
  m !! "fields" = Some (VObject fields) →
  m !! field = None →
  ∃ selectors structure,
    loadStructuredSchema (VObject m) = Some (ExtractorSchema_of selectors structure)
    ∧ selectors !! field = None
    ∧ structure !! field = None.
Proof.
  intros Hsel Hstr Htype Hprops Hfields Hfield.
  unfold loadStructuredSchema, isStructuredSchema. simpl.
  rewrite Hsel, Hstr, Htype, Hprops. simpl.
  unfold convertToStructuredSchema. simpl.
  pose proof (convert_loop_top_level m field Hfield) as [Hs Ht].
  destruct (map_fold convert_step (∅, ∅) m) as [selectors structure].
  eauto.
Qed.

Lemma loadStructuredSchema_skips_fields_witness :
  ∃ selectors structure,
    loadStructuredSchema Examples.legacy_schema
    = Some (ExtractorSchema_of selectors structure)
    ∧ selectors !! "title" = None
    ∧ structure !! "title" = None.
Proof.
  apply (loadStructuredSchema_skips_fields
           {[ "fields" := VObject {[ "title" := VString ".t" ]} ]}
           {[ "title" := VString ".t" ]} "title");
    reflexivity.
Defined.

Lemma parseStructuredSchema_legacy_fields_witness :
  ∃ selectors structure,
    parseStructuredSchema
      (VObject {[ "fields" := VObject {[ "title" := VString ".t";
                                         "__proto__" := VString ".p" ]} ]})
    = Some (ExtractorSchema_of selectors structure)
    ∧ selectors !! "title" = Some (VString ".t")
    ∧ structure !! "title" = Some (string_descriptor ".t")
    ∧ selectors !! "__proto__" = None
    ∧ structure !! "__proto__" = None.
Proof.
  edestruct (parseStructuredSchema_legacy_fields
    {[ "fields" := VObject {[ "title" := VString ".t"; "__proto__" := VString ".p" ]} ]}
    {[ "title" := VString ".t"; "__proto__" := VString ".p" ]})
    as (selectors & structure & Hparse & Hfields & Hs & Ht); [reflexivity..|].
  exists selectors, structure. split; [exact Hparse|].
  destruct (Hfields "title" ".t" eq_refl) as [Hs' Ht']; [done|].
  split_and!; assumption.
Defined.

Lemma loadStructuredSchema_total_witness :
  is_Some (loadStructuredSchema (VArray [VString ".a"; VString "string"])).
Proof. apply loadStructuredSchema_total; discriminate. Defined.

(** * More of the code *)

(** ** The property-style branch of the normaliser *)

(** X3: an object with a [properties] map (and not already canonical) is
    normalised property by property: a property that is an object with a
    string [selector] gives that selector and the same object without its
    [selector] key; any other property is copied into [structure] as it is
    and gets no selector.  A property named [__proto__] is the exception:
    it leaves no entry in either map. *)
Theorem properties_style_split (m props : gmap string any) :
  truthy (get (VObject m) "selectors") && truthy (get (VObject m) "structure") = false →
  m !! "properties" = Some (VObject props) →
  ∃ selectors structure,
    loadStructuredSchema (VObject m) = Some (ExtractorSchema_of selectors structure)
    ∧ (∀ field p s,
         props !! field = Some (VObject p) → p !! "selector" = Some (VString s) →
         field ≠ "__proto__" →
         selectors !! field = Some (VString s)
         ∧ structure !! field = Some (VObject (delete "selector" p)))
    ∧ (∀ field propSchema,
         props !! field = Some propSchema →
         (∀ p s, propSchema = VObject p → p !! "selector" ≠ Some (VString s)) →
         field ≠ "__proto__" →
         selectors !! field = None ∧ structure !! field = Some propSchema)
    ∧ (∀ field,
         props !! field = None →
         selectors !! field = None ∧ structure !! field = None)
    ∧ selectors !! "__proto__" = None
    ∧ structure !! "__proto__" = None.
Proof.
  intros Hcanonical Hprops.
  unfold loadStructuredSchema, isStructuredSchema, parseStructuredSchema.
  rewrite Hcanonical. simpl. rewrite Hprops. simpl. rewrite !orb_true_r. simpl.
  pose proof (properties_loop_lookup props) as Hloop.
  destruct (map_fold properties_step (∅, ∅) props) as [selectors structure].
  exists selectors, structure. split; [done|]. simpl in Hloop. split_and!.
  - intros field p s Hfield Hselector Hname.
    destruct (Hloop field) as [-> ->]. rewrite Hfield. simpl.
    rewrite Hselector. simpl. by rewrite !lookup_assign.
  - intros field propSchema Hfield Hnone Hname.
    destruct (Hloop field) as [-> ->]. rewrite Hfield. simpl.
    unfold properties_step. repeat case_match; simpl;
      rewrite ?lookup_assign, ?lookup_empty by done; try done.
    subst. by edestruct Hnone.
  - intros field Hfield. destruct (Hloop field) as [-> ->]. by rewrite Hfield.
  - destruct (Hloop "__proto__") as [-> _].
    destruct (props !! "__proto__") as [v|]; [|done]. apply properties_step_proto.
  - destruct (Hloop "__proto__") as [_ ->].
    destruct (props !! "__proto__") as [v|]; [|done]. apply properties_step_proto.
Qed.

Lemma properties_style_split_witness :
  ∃ selectors structure,
    loadStructuredSchema
      (VObject {[ "type" := VString "object";
                  "properties" := VObject {[
                    "title" := VObject {[ "type" := VString "string";
                                          "selector" := VString "h1" ]};
                    "tags" := VObject {[ "type" := VString "array" ]} ]} ]})
    = Some (ExtractorSchema_of selectors structure)
    ∧ selectors !! "title" = Some (VString "h1")
    ∧ structure !! "title" = Some (VObject {[ "type" := VString "string" ]})
    ∧ selectors !! "tags" = None
    ∧ structure !! "tags" = Some (VObject {[ "type" := VString "array" ]}).
Proof.
  edestruct (properties_style_split
    {[ "type" := VString "object";
       "properties" := VObject {[
         "title" := VObject {[ "type" := VString "string";
                               "selector" := VString "h1" ]};
         "tags" := VObject {[ "type" := VString "array" ]} ]} ]}
    {[ "title" := VObject {[ "type" := VString "string";
                             "selector" := VString "h1" ]};
       "tags" := VObject {[ "type" := VString "array" ]} ]})
    as (selectors & structure & Hload & Hsplit & Hcopy & _); [reflexivity..|].
  exists selectors, structure. split; [exact Hload|].
  destruct (Hsplit "title" {[ "type" := VString "string"; "selector" := VString "h1" ]}
              "h1" eq_refl eq_refl) as [Hs Ht]; [done|].
  destruct (Hcopy "tags" (VObject {[ "type" := VString "array" ]}) eq_refl)
    as [Hs' Ht'].
  { intros p s [= <-]. discriminate. }
  { done. }
  split_and!; [exact Hs | rewrite Ht; reflexivity | exact Hs' | exact Ht'].
Defined.

(** ** The flat selector map *)

(** X4: an object that [isStructuredSchema] does not recognise is read as
    a flat map, entry by entry.  A string that contains [.], [#] or [[]
    becomes a selector with the synthesised string descriptor; any other
    string that is one of the five type names becomes a descriptor without
    a selector; every other entry (a bare tag selector such as [h1], a
    number, a nested object) is dropped, and so is an entry named
    [__proto__], whatever its value. *)
Theorem flat_map_conversion (m : gmap string any) :
  isStructuredSchema (VObject m) = false →
  ∃ selectors structure,
    loadStructuredSchema (VObject m) = Some (ExtractorSchema_of selectors structure)
    ∧ (∀ field s,
         m !! field = Some (VString s) →
         includes s "." || includes s "#" || includes s "[" = true →
         field ≠ "__proto__" →
         selectors !! field = Some (VString s)
         ∧ structure !! field = Some (string_descriptor s))
    ∧ (∀ field s,
         m !! field = Some (VString s) →
         includes s "." || includes s "#" || includes s "[" = false →
         s ∈ ["string"; "number"; "boolean"; "object"; "array"] →
         field ≠ "__proto__" →
         selectors !! field = None
         ∧ structure !! field
           = Some (VObject {[ "type" := VString s; "nullable" := VBoolean true ]}))
    ∧ (∀ field s,
         m !! field = Some (VString s) →
         includes s "." || includes s "#" || includes s "[" = false →
         s ∉ ["string"; "number"; "boolean"; "object"; "array"] →
         selectors !! field = None ∧ structure !! field = None)
    ∧ (∀ field v,
         m !! field = Some v → (∀ s, v ≠ VString s) →
         selectors !! field = None ∧ structure !! field = None)
    ∧ (∀ field,
         m !! field = None →
         selectors !! field = None ∧ structure !! field = None)
    ∧ selectors !! "__proto__" = None
    ∧ structure !! "__proto__" = None.
Proof.
  intros Hflat. unfold loadStructuredSchema. rewrite Hflat.
  unfold convertToStructuredSchema. simpl.
  pose proof (convert_loop_lookup m) as Hloop.
  destruct (map_fold convert_step (∅, ∅) m) as [selectors structure].
  exists selectors, structure. split; [done|]. simpl in Hloop. split_and!.
  - intros field s Hfield Hselector Hname. destruct (Hloop field) as [-> ->].
    rewrite Hfield. simpl. rewrite Hselector. simpl. by rewrite !lookup_assign.
  - intros field s Hfield Hselector Htype Hname. destruct (Hloop field) as [-> ->].
    rewrite Hfield. simpl. rewrite Hselector, bool_decide_true by done. simpl.
    by rewrite lookup_assign, lookup_empty.
  - intros field s Hfield Hselector Htype. destruct (Hloop field) as [-> ->].
    rewrite Hfield. simpl. rewrite Hselector, bool_decide_false by done. simpl.
    by rewrite !lookup_empty.
  - intros field v Hfield Hother. destruct (Hloop field) as [-> ->].
    rewrite Hfield. simpl. destruct v; simpl; rewrite ?lookup_empty; try done.
    by edestruct Hother.
  - intros field Hfield. destruct (Hloop field) as [-> ->]. by rewrite Hfield.
  - destruct (Hloop "__proto__") as [-> _].
    destruct (m !! "__proto__") as [v|]; [|done]. apply convert_step_proto.
  - destruct (Hloop "__proto__") as [_ ->].
    destruct (m !! "__proto__") as [v|]; [|done]. apply convert_step_proto.
Qed.

Lemma flat_map_conversion_witness :
  ∃ selectors structure,
    loadStructuredSchema
      (VObject {[ "title" := VString ".t"; "price" := VString "number";
                  "heading" := VString "h1"; "__proto__" := VString ".p" ]})
    = Some (ExtractorSchema_of selectors structure)
    ∧ selectors !! "title" = Some (VString ".t")
    ∧ structure !! "price"
      = Some (VObject {[ "type" := VString "number"; "nullable" := VBoolean true ]})
    ∧ selectors !! "heading" = None
    ∧ structure !! "heading" = None
    ∧ selectors !! "__proto__" = None
    ∧ structure !! "__proto__" = None.
Proof.
  edestruct (flat_map_conversion
    {[ "title" := VString ".t"; "price" := VString "number";
       "heading" := VString "h1"; "__proto__" := VString ".p" ]})
    as (selectors & structure & Hload & Hselector & Htype & Hdropped & _ & _ & Hs & Ht);
    [reflexivity|].
  exists selectors, structure. split; [exact Hload|].
  destruct (Hselector "title" ".t" eq_refl eq_refl) as [Htitle _]; [done|].
  destruct (Htype "price" "number" eq_refl eq_refl) as [_ Hprice].
  { apply (bool_decide_unpack _). vm_compute. exact I. }
  { done. }
  destruct (Hdropped "heading" "h1" eq_refl eq_refl) as [Hh1 Hh2].
  { apply (bool_decide_unpack _). vm_compute. exact I. }
  split_and!; assumption.
Defined.

(** X5: an object that has a truthy [type] and no [properties] (and is not
    already canonical) is taken whole as the descriptor of one field named
    [root], with no selector at all, whatever else it contains.  A flat
    selector map that happens to have a field named [type] is read this
    way, and its selectors are lost. *)
Theorem type_key_makes_root (m : gmap string any) :
  truthy (get (VObject m) "type") = true →
  truthy (get (VObject m) "properties") = false →
  truthy (get (VObject m) "selectors") && truthy (get (VObject m) "structure") = false →
  loadStructuredSchema (VObject m)
  = Some (ExtractorSchema_of ∅ {[ "root" := VObject m ]}).
Proof.
  intros Htype Hprops Hcanonical.
  unfold loadStructuredSchema, isStructuredSchema, parseStructuredSchema.
  by rewrite Hcanonical, Htype, Hprops.
Qed.

Lemma type_key_makes_root_witness :
  loadStructuredSchema
    (VObject {[ "title" := VString ".t"; "type" := VString ".kind" ]})
  = Some (ExtractorSchema_of ∅
            {[ "root" := VObject {[ "title" := VString ".t";
                                    "type" := VString ".kind" ]} ]}).
Proof. apply type_key_makes_root; reflexivity. Defined.

(** ** An invariant of the normaliser's own results *)

Section selectors_declared.

Local Abbreviation declared acc :=
  (∀ field v, acc.1 !! field = Some v →
     (∃ selector, v = VString selector) ∧ is_Some (acc.2 !! field)).

Lemma loop_keeps_declared
    (step : string → any → gmap string any * gmap string any
            → gmap string any * gmap string any)
    (entries : gmap string any) :
  (∀ k v (acc : gmap string any * gmap string any),
     declared acc → declared (step k v acc)) →
  declared (map_fold step (∅, ∅) entries).
Proof.
  intros Hstep.
  apply (map_fold_weak_ind (λ acc (_ : gmap string any), declared acc)).
  - intros field v. simpl. by rewrite lookup_empty.
  - intros k x m acc _ IH. by apply Hstep.
Qed.

Ltac step_declared step :=
  intros k x [s t] IH field v; unfold step, assign; repeat case_match; simpl;
  try (apply IH);
  (destruct (decide (field = k)) as [->|Hne];
   [ rewrite ?lookup_insert_eq; intros Hs;
     first [ by (simplify_eq; eauto)
           | by (destruct (IH _ _ Hs) as [? _]; eauto) ]
   | rewrite ?lookup_insert_ne by done; apply IH ]).

Lemma convert_step_declared k v (acc : gmap string any * gmap string any) :
  declared acc → declared (convert_step k v acc).
Proof. revert k v acc. step_declared convert_step. Qed.

Lemma properties_step_declared k v (acc : gmap string any * gmap string any) :
  declared acc → declared (properties_step k v acc).
Proof. revert k v acc. step_declared properties_step. Qed.

Lemma fields_step_declared k v (acc : gmap string any * gmap string any) :
  declared acc → declared (fields_step k v acc).
Proof. revert k v acc. step_declared fields_step. Qed.

(** X6: whenever normalisation builds its result itself (every branch but
    the one that returns an already canonical input), every entry of
    [selectors] is a string and names a field that [structure] declares. *)
Theorem built_selectors_are_declared_strings (schema result : any) :
  loadStructuredSchema schema = Some result →
  result = schema
  ∨ ∃ selectors structure,
      result = ExtractorSchema_of selectors structure
      ∧ ∀ field v,
          selectors !! field = Some v →
          (∃ selector, v = VString selector) ∧ is_Some (structure !! field).
Proof.
  assert (∀ (entries : gmap string any) step,
    (∀ k v (acc : gmap string any * gmap string any),
       declared acc → declared (step k v acc)) →
    (let '(selectors, structure) := map_fold step (∅, ∅) entries in
     Some (ExtractorSchema_of selectors structure)) = Some result →
    ∃ selectors structure,
      result = ExtractorSchema_of selectors structure
      ∧ declared (selectors, structure)) as Hloop.
  { intros entries step Hstep.
    pose proof (loop_keeps_declared step entries Hstep) as Hinv.
    destruct (map_fold step (∅, ∅) entries) as [s t]. intros [= <-]. eauto. }
  assert (∀ x, convertToStructuredSchema x = Some result →
    ∃ selectors structure,
      result = ExtractorSchema_of selectors structure
      ∧ declared (selectors, structure)) as Hconvert.
  { intros x. unfold convertToStructuredSchema.
    destruct (Object_entries x) as [entries|]; [simpl|done].
    apply Hloop, convert_step_declared. }
  unfold loadStructuredSchema. destruct (isStructuredSchema schema).
  - unfold parseStructuredSchema. intros Hresult.
    destruct schema; try done; branch_cases Hresult;
      first [ left; by simplify_eq
            | right; simplify_eq;
              by eauto using properties_step_declared, fields_step_declared
            | right; simplify_eq; eexists ∅, _; split; [done|];
              intros field v; simpl; by rewrite lookup_empty ].
  - intros Hresult. right. by apply (Hconvert schema).
Qed.

End selectors_declared.

Lemma built_selectors_are_declared_strings_witness :
  ExtractorSchema_of {[ "title" := VString ".t" ]}
    {[ "title" := string_descriptor ".t" ]}
  = VObject {[ "title" := VString ".t" ]}
  ∨ ∃ selectors structure,
      ExtractorSchema_of {[ "title" := VString ".t" ]}
        {[ "title" := string_descriptor ".t" ]}
      = ExtractorSchema_of selectors structure
      ∧ ∀ field v,
          selectors !! field = Some v →
          (∃ selector, v = VString selector) ∧ is_Some (structure !! field).
Proof.
  apply (built_selectors_are_declared_strings (VObject {[ "title" := VString ".t" ]})).
  reflexivity.
Defined.

(** ** Listing the schema files *)

Lemma endsWith_app (name suffix : string) : endsWith (name +:+ suffix) suffix = true.
Proof.
  induction name as [|c name IH].
  - change ("" +:+ suffix) with suffix. destruct suffix as [|a suffix]; [done|].
    change (endsWith (String a suffix) (String a suffix))
      with (bool_decide (String a suffix = String a suffix)
            || endsWith suffix (String a suffix)).
    by rewrite bool_decide_true.
  - change (endsWith (String c name +:+ suffix) suffix)
      with (bool_decide (String c (name +:+ suffix) = suffix)
            || endsWith (name +:+ suffix) suffix).
    by rewrite IH, orb_true_r.
Qed.

Lemma prefix_true_app (s1 s2 : string) :
  String.prefix s1 s2 = true → ∃ rest, s2 = s1 +:+ rest.
Proof.
  revert s2. induction s1 as [|a s1 IH]; intros s2; [by exists s2|].
  destruct s2 as [|b s2]; [done|]. simpl.
  destruct (Ascii.ascii_dec a b) as [<-|]; [|done].
  intros [rest ->]%IH. by exists rest.
Qed.

(** [.json] cannot start inside a name and run into the extension: its
    only dot is its first character. *)
Lemma prefix_json_app (c : Ascii.ascii) (name : string) :
  String.prefix ".json" (String c name) = false →
  String.prefix ".json" (String c name +:+ ".json") = false.
Proof.
  intros Hfalse.
  destruct (String.prefix ".json" (String c name +:+ ".json")) eqn:Htrue; [|done].
  apply prefix_true_app in Htrue as [rest Hrest]. exfalso.
  destruct name as [|c2 [|c3 [|c4 [|c5 name]]]];
    cbv in Hrest; simplify_eq; destruct name; vm_compute in Hfalse; discriminate Hfalse.
Qed.

Lemma replace_json_suffix (name : string) :
  includes name ".json" = false → replace (name +:+ ".json") ".json" "" = name.
Proof.
  induction name as [|c name IH]; [done|].
  intros [Hprefix Hrest]%orb_false_elim.
  change (replace (String c name +:+ ".json") ".json" "")
    with (if String.prefix ".json" (String c name +:+ ".json")
          then "" +:+ drop_chars (String.length ".json") (String c name +:+ ".json")
          else String c (replace (name +:+ ".json") ".json" "")).
  rewrite prefix_json_app by done. by rewrite IH.
Qed.

(** X7: listing and loading agree on names.  A schema stored as
    [<name>.json], where [name] itself does not contain [.json], is listed
    under [name], the name [loadSchema] builds the path [<name>.json] from;
    and when the directory cannot be read the list is empty. *)
Theorem listSchemas_lists_loadable_names (files : list string) (name : string) :
  includes name ".json" = false →
  name +:+ ".json" ∈ files →
  name ∈ listSchemas (Some files) ∧ listSchemas None = [].
Proof.
  intros Hname Hfile. split; [|done]. unfold listSchemas.
  apply list_elem_of_fmap. exists (name +:+ ".json").
  split; [by rewrite replace_json_suffix|].
  apply list_elem_of_filter. split; [|done].
  by rewrite endsWith_app.
Qed.

Lemma listSchemas_lists_loadable_names_witness :
  "article" ∈ listSchemas (Some ["README.md"; "article.json"; "product.json"])
  ∧ listSchemas None = [].
Proof.
  apply (listSchemas_lists_loadable_names
           ["README.md"; "article.json"; "product.json"] "article");
    [reflexivity|].
  apply (bool_decide_unpack _). vm_compute. exact I.
Defined.

(** Only the first [.json] is removed, so a file whose name has [.json]
    before the extension is listed under a name nothing loads. *)
Example listSchemas_inner_json :
  listSchemas (Some ["notes.txt"; "site.json.v2.json"; "article.json"])
  = ["site.v2.json"; "article"].
Proof. reflexivity. Qed.

(** ** More about the field extractor *)

Section raw_data.
Context `{!Builtins}.

Lemma omap_href_strings (element : list Element) :
  omap (λ el, VString <$> el_href el) element = VString <$> omap el_href element.
Proof.
  induction element as [|el element IH]; [done|]. simpl.
  destruct (el_href el); simpl; by f_equal.
Qed.

(** What [extract_field] answers: [null], a string or an array of strings. *)
Lemma extract_field_shape (html : CheerioAPI) (fieldName selector : string) :
  extract_field html fieldName selector = VNull
  ∨ (∃ s, extract_field html fieldName selector = VString s)
  ∨ (∃ l : list string, extract_field html fieldName selector = VArray (VString <$> l)).
Proof.
  unfold extract_field. destruct (html selector) as [element|]; [|by left].
  repeat case_match; eauto.
  - right. right. eexists. apply f_equal, omap_href_strings.
  - right. right. exists ((λ el, trim (el_text el)) <$> element).
    by rewrite <- list_fmap_compose.
Qed.

(** X8: raw extraction gives every field of [selectors] an entry, except
    a field named [__proto__], and no other; each raw value is [null], a
    string, or an array of strings: never [undefined], a number or an
    object. *)
Theorem rawData_fields_and_shapes (html : CheerioAPI) (schema : gmap string string) :
  dom (rawData html schema) = dom schema ∖ {[ "__proto__" ]}
  ∧ ∀ fieldName v,
      rawData html schema !! fieldName = Some v →
      v = VNull
      ∨ (∃ s, v = VString s)
      ∨ (∃ l : list string, v = VArray (VString <$> l)).
Proof.
  split.
  - apply set_eq. intros fieldName.
    rewrite elem_of_difference, !elem_of_dom, rawData_lookup, not_elem_of_singleton.
    case_decide as Hname.
    + split; [intros [? Hnone]; discriminate Hnone|].
      intros [_ Hproto]. by destruct Hproto.
    + rewrite fmap_is_Some.
      split; [intros Hsome; split; assumption | intros [Hsome _]; exact Hsome].
  - intros fieldName v. rewrite rawData_lookup. case_decide; [done|].
    destruct (schema !! fieldName) as [selector|]; [simpl|done].
    intros [= <-]. apply extract_field_shape.
Qed.

(** X9: a field whose lower-cased name contains [url] never carries text.
    With one match its value is the [href] of the node, [null] when the
    attribute is missing or empty; with no match it is [null]; with several
    matches it is the array of the [href]s that exist, in document order,
    so it can be shorter than the number of matches. *)
Theorem url_field_reads_href (html : CheerioAPI) (schema : gmap string string)
    (fieldName selector : string) (element : list Element) :
  schema !! fieldName = Some selector →
  html selector = Some element →
  includes (toLowerCase fieldName) "url" = true →
  rawData html schema !! fieldName
  = Some
      match element with
      | [] => VNull
      | [el] =>
          match el_href el with
          | Some href => if bool_decide (href = "") then VNull else VString href
          | None => VNull
          end
      | _ => VArray (VString <$> omap el_href element)
      end.
Proof.
  intros Hfield Hhtml Hurl.
  rewrite rawData_lookup, decide_False, Hfield
    by (by apply (special_field_not_proto fieldName "url")).
  simpl. f_equal. unfold extract_field. rewrite Hhtml, Hurl.
  destruct element as [|el [|el' rest]]; [done| |].
  - simpl. change (attr_href [el]) with (el_href el).
    destruct (el_href el) as [href|]; [|done].
    by destruct (bool_decide (href = "")).
  - rewrite bool_decide_true by (simpl; lia). by rewrite omap_href_strings.
Qed.

(** X10: a comment field (lower-cased name contains [comment] and not
    [url]) always gets a string, also when nothing matches: the capture of
    [(\d+)\s+comments?] when the trimmed text of all matched nodes has
    one, that trimmed text otherwise. *)
Theorem comment_field_is_a_string (html : CheerioAPI) (schema : gmap string string)
    (fieldName selector : string) (element : list Element) :
  schema !! fieldName = Some selector →
  html selector = Some element →
  includes (toLowerCase fieldName) "url" = false →
  includes (toLowerCase fieldName) "comment" = true →
  ∃ s,
    rawData html schema !! fieldName = Some (VString s)
    ∧ (match_comments (trim (text element)) = None → s = trim (text element))
    ∧ (∀ digits,
         match_comments (trim (text element)) = Some digits →
         s = if bool_decide (digits = "") then trim (text element) else digits).
Proof.
  intros Hfield Hhtml Hurl Hcomment.
  rewrite rawData_lookup, decide_False, Hfield
    by (by apply (special_field_not_proto fieldName "comment")).
  simpl. unfold extract_field. rewrite Hhtml, Hurl, Hcomment.
  destruct (match_comments (trim (text element))) as [digits|].
  - simpl. destruct (bool_decide (digits = "")) eqn:Hdigits; simpl;
      eexists; (split; [done|]); (split; [done|]); intros ? [= <-];
      by rewrite Hdigits.
  - eexists. split; [done|]. by split.
Qed.

Lemma extract_field_defined (html : CheerioAPI) (fieldName selector : string) :
  is_undefined (extract_field html fieldName selector) = false.
Proof.
  destruct (extract_field_shape html fieldName selector)
    as [-> | [[s ->] | [l ->]]]; done.
Qed.


End raw_data.

Lemma rawData_fields_and_shapes_witness :
  dom (rawData (H := Reference.builtins) Examples.page Examples.proto_selectors)
  = {[ "title" ]}.
Proof.
  rewrite (proj1 (rawData_fields_and_shapes (H := Reference.builtins)
                    Examples.page Examples.proto_selectors)).
  reflexivity.
Defined.

Lemma url_field_reads_href_witness :
  rawData (H := Reference.builtins) Examples.page
    (selectors Examples.end_to_end) !! "productUrl"
  = Some (VString "/x").
Proof.
  apply (url_field_reads_href (H := Reference.builtins) Examples.page
           (selectors Examples.end_to_end) "productUrl" "a.buy"
           [MkElement "Buy now" (Some "/x")]);
    reflexivity.
Defined.

Lemma comment_field_is_a_string_witness :
  ∃ s,
    rawData (H := Reference.builtins) Examples.page
      {[ "numComments" := ".none" ]} !! "numComments" = Some (VString s)
    ∧ s = "".
Proof.
  edestruct (comment_field_is_a_string (H := Reference.builtins) Examples.page
               {[ "numComments" := ".none" ]} "numComments" ".none" [])
    as (s & Hraw & Htext & _); [reflexivity..|].
  exists s. split; [exact Hraw|]. apply Htext. reflexivity.
Defined.


(** ** More about the type coercer *)

Section coercion_results.
Context `{!Builtins}.

(** X12: the result of a coercion has the type its descriptor names: a
    string for [string], a number that is not [NaN] for [number], a boolean
    for [boolean], an array for [array]; for [object] it is an object or an
    array (an array counts as an object and passes). *)
Theorem convertToType_result_type (value : any) (schema : StructuredSchema) :
  (type schema = "string" → ∃ s, convertToType value schema = VString s)
  ∧ (type schema = "number" →
     ∃ n, convertToType value schema = VNumber n ∧ PrimFloat.is_nan n = false)
  ∧ (type schema = "boolean" → ∃ b, convertToType value schema = VBoolean b)
  ∧ (type schema = "array" → ∃ l, convertToType value schema = VArray l)
  ∧ (type schema = "object" → is_object (convertToType value schema) = true).
Proof.
  destruct schema as [t ? ? ? ? ? ? ps ? ? its ?]. simpl.
  split_and!; intros ->; simpl.
  - eauto.
  - destruct (PrimFloat.is_nan (Number_ value)) eqn:Hnan; eauto.
  - destruct value; eauto.
  - destruct its; eauto.
  - destruct ps; [done|]. by destruct value.
Qed.



End coercion_results.

Lemma convertToType_result_type_witness :
  ∃ n,
    convertToType (H := Reference.builtins) (VString "12 apples") (descriptor "number")
    = VNumber n
    ∧ PrimFloat.is_nan n = false.
Proof.
  apply (convertToType_result_type (H := Reference.builtins)
           (VString "12 apples") (descriptor "number")).
  reflexivity.
Defined.


(** ** Metadata, put on and taken off *)

(** X14: taking the metadata off an assembled output gives back the data
    it was assembled from, provided the data has no field named
    [_metadata]; a field of that name is overwritten by the assembler and
    removed by the projection.  Assembling twice keeps the later stamp
    only. *)
Theorem excludeMetadata_addMetadata (data : gmap string any) (now later : string) :
  excludeMetadata (addMetadata data now) = delete "_metadata" data
  ∧ (data !! "_metadata" = None → excludeMetadata (addMetadata data now) = data)
  ∧ addMetadata (addMetadata data now) later = addMetadata data later.
Proof.
  unfold excludeMetadata, addMetadata. split_and!.
  - by rewrite delete_insert_eq.
  - intros Hfresh. by rewrite delete_insert_eq, delete_id.
  - by rewrite insert_insert_eq.
Qed.

Lemma excludeMetadata_addMetadata_witness :
  excludeMetadata (addMetadata {[ "title" := VString "Hello" ]} "2024-01-01T00:00:00.000Z")
  = {[ "title" := VString "Hello" ]}.
Proof.
  apply (excludeMetadata_addMetadata {[ "title" := VString "Hello" ]}
           "2024-01-01T00:00:00.000Z" "").
  reflexivity.
Defined.

(** ** The formatter's fallback *)

Section fallback.
Context `{!Builtins}.

Lemma validateBasicTypes_lookup (data : gmap string any)
    (schema : gmap string StructuredSchema) (field : string) :
  validateBasicTypes data schema !! field
  = schema !! field ≫= λ fieldSchema,
      validate_basic_step data field fieldSchema ∅ !! field.
Proof.
  unfold validateBasicTypes. apply map_fold_own_slot.
  - intros k v r j Hj. unfold validate_basic_step.
    repeat case_match; by rewrite ?lookup_insert_ne.
  - intros k v r Hk. unfold validate_basic_step.
    repeat case_match; by rewrite ?lookup_insert_eq, ?Hk, ?lookup_empty.
Qed.

(** [validateBasicTypes] changes nothing in a value that already has the
    type its descriptor names. *)
Lemma validate_basic_step_coerced (data : gmap string any) (field : string)
    (fieldSchema : StructuredSchema) (raw : any) :
  data !! field = Some (convertToType raw fieldSchema) →
  is_undefined (convertToType raw fieldSchema) = false →
  validate_basic_step data field fieldSchema ∅ !! field
  = Some (convertToType raw fieldSchema).
Proof.
  intros Hdata Hdefined. unfold validate_basic_step. rewrite Hdata. simpl.
  rewrite Hdefined. clear Hdata Hdefined.
  destruct fieldSchema as [t ? ? ? ? ? ? ? ? ? its ?]. simpl.
  repeat case_decide; rewrite lookup_insert_eq; f_equal; try done.
  - destruct (PrimFloat.is_nan (Number_ raw)) eqn:Hnan; simpl; by rewrite ?Hnan.
  - by destruct raw.
  - by destruct its.
Qed.

(** X15: when the language model gives no usable answer, the formatter
    falls back to [validateBasicTypes] on the extractor's output, and every
    declared field that the extractor produced with a value other than
    [null] comes out of the fallback unchanged; the metadata is stamped
    anew. *)
Theorem fallback_keeps_coerced_fields (html : CheerioAPI) (schema : ExtractorSchema)
    (declared : gmap string StructuredSchema) (now later fieldName : string)
    (v : any) :
  structure schema = Some declared →
  fieldName ≠ "_metadata" →
  extractStructuredData html schema now !! fieldName = Some v →
  v ≠ VNull → v ≠ VUndefined →
  formatStructuredOutput None (extractStructuredData html schema now) declared later
    !! fieldName = Some v
  ∧ formatStructuredOutput None (extractStructuredData html schema now) declared later
      !! "_metadata"
    = Some (VObject {[ "schemaVersion" := VString "1.0";
                       "extractedAt" := VString later ]}).
Proof.
  intros Hstructure Hname Hvalue Hnull Hundefined.
  unfold formatStructuredOutput. split; [|apply addMetadata_lookup_metadata].
  rewrite addMetadata_lookup_ne, validateBasicTypes_lookup by done.
  revert Hvalue. unfold extractStructuredData. rewrite Hstructure.
  set (data := addMetadata _ now).
  assert (data !! fieldName
          = validateAndStructure (rawData html (selectors schema)) declared !! fieldName)
    as Hdata by (by apply addMetadata_lookup_ne).
  rewrite Hdata, validateAndStructure_lookup.
  destruct (declared !! fieldName) as [schemaType|] eqn:Hdeclared; [simpl|done].
  intros Hvalue.
  assert (∃ raw, v = convertToType raw schemaType) as [raw ->].
  { revert Hvalue. unfold validate_step.
    repeat case_match; rewrite ?lookup_insert_eq, ?lookup_empty;
      intros ?; simplify_eq; eauto. }
  apply validate_basic_step_coerced.
  - by rewrite Hdata, validateAndStructure_lookup, Hdeclared.
  - by destruct (convertToType raw schemaType).
Qed.

(** X16: the fallback has no rule for [null], which the extractor keeps
    for nullable fields: a [null] field comes out as the string ["null"]
    under a [string] descriptor, as [0] under [number], as [false] under
    [boolean], as the one-element array [[null]] under [array], and stays
    [null] under any other type. *)
Theorem fallback_rewrites_null (data : gmap string any)
    (schema : gmap string StructuredSchema) (field : string)
    (fieldSchema : StructuredSchema) :
  data !! field = Some VNull →
  schema !! field = Some fieldSchema →
  validateBasicTypes data schema !! field
  = Some
      (if decide (type fieldSchema = "string") then VString "null"
       else if decide (type fieldSchema = "number") then VNumber PrimFloat.zero
       else if decide (type fieldSchema = "boolean") then VBoolean false
       else if decide (type fieldSchema = "array") then VArray [VNull]
       else VNull).
Proof.
  intros Hdata Hschema. rewrite validateBasicTypes_lookup, Hschema. simpl.
  unfold validate_basic_step. rewrite Hdata. simpl.
  repeat case_decide; by rewrite lookup_insert_eq.
Qed.

End fallback.

Lemma fallback_keeps_coerced_fields_witness :
  formatStructuredOutput (H := Reference.builtins) None
    (extractStructuredData (H := Reference.builtins) Examples.page
       Examples.end_to_end "2024-01-01T00:00:00.000Z")
    {[ "title" := Examples.string_nullable false;
       "numComments" := descriptor "number" ]}
    "2024-01-02T00:00:00.000Z" !! "numComments"
  = Some (VNumber (number_of_nat 42)).
Proof.
  apply (fallback_keeps_coerced_fields (H := Reference.builtins) Examples.page
           Examples.end_to_end
           {[ "title" := Examples.string_nullable false;
              "numComments" := descriptor "number" ]}
           "2024-01-01T00:00:00.000Z" "2024-01-02T00:00:00.000Z" "numComments");
    [reflexivity | done | vm_compute; reflexivity | done | done].
Defined.

Lemma fallback_rewrites_null_witness :
  validateBasicTypes (H := Reference.builtins)
    {[ "price" := VNull ]} {[ "price" := Examples.string_nullable true ]} !! "price"
  = Some (VString "null").
Proof.
  apply (fallback_rewrites_null (H := Reference.builtins)
           {[ "price" := VNull ]} {[ "price" := Examples.string_nullable true ]}
           "price" (Examples.string_nullable true));
    reflexivity.
Defined.

(** ** Fetching with retries *)

Section fetching.
Import Scraper.

Local Abbreviation backoff := (λ attempt : nat, (2 ^ N.of_nat attempt * 1000)%N).

Lemma fetch_loop_S (axios_get : nat → outcome) (url : string)
    (retries attempt remaining : nat) (lastError : option string) :
  fetch_loop axios_get url retries attempt (S remaining) lastError
  = match axios_get attempt with
    | Response data => MkFetched (inl data) []
    | Failure message =>
        let rest :=
          fetch_loop axios_get url retries (S attempt) remaining (Some message) in
        if decide (attempt < retries) then
          MkFetched (answer rest) (backoff attempt :: waits rest)
        else rest
    end.
Proof. reflexivity. Qed.

Lemma fetch_loop_success (axios_get : nat → outcome) (url : string)
    (retries k : nat) (data : string) :
  axios_get k = Response data →
  k ≤ retries →
  ∀ d attempt lastError,
    k = attempt + d →
    (∀ i, attempt ≤ i < k → ∃ message, axios_get i = Failure message) →
    fetch_loop axios_get url retries attempt (retries + 1 - attempt) lastError
    = MkFetched (inl data) (backoff <$> seq attempt d).
Proof.
  intros Hk Hbound d. induction d as [|d IH]; intros attempt lastError Heq Hfail.
  - replace (retries + 1 - attempt) with (S (retries - attempt)) by lia.
    simpl. replace attempt with k by lia. by rewrite Hk.
  - replace (retries + 1 - attempt) with (S (retries - attempt)) by lia.
    destruct (Hfail attempt) as [message Hmessage]; [lia|].
    simpl. rewrite Hmessage, decide_True by lia.
    replace (retries - attempt) with (retries + 1 - S attempt) by lia.
    rewrite (IH (S attempt)); [done | lia |]. intros i Hi. apply Hfail. lia.
Qed.

(** X17: [fetchHTML] returns the page of the first request that succeeds,
    as long as that is one of the first [retries + 1]; before it, it has
    waited after each failed request, 1000 ms after the first, twice as
    long after each following one. *)
Theorem fetchHTML_first_success (axios_get : nat → outcome) (url : string)
    (retries k : nat) (data : string) :
  k ≤ retries →
  (∀ i, i < k → ∃ message, axios_get i = Failure message) →
  axios_get k = Response data →
  fetchHTML axios_get url (Some retries)
  = MkFetched (inl data) (backoff <$> seq 0 k).
Proof.
  intros Hbound Hfail Hk. unfold fetchHTML. simpl.
  replace (retries + 1) with (retries + 1 - 0) by lia.
  apply fetch_loop_success with (k := k); [done | done | done |].
  intros i Hi. apply Hfail. lia.
Qed.

Lemma fetch_loop_failure (axios_get : nat → outcome) (url : string)
    (retries : nat) (last : string) :
  axios_get retries = Failure last →
  ∀ d attempt lastError,
    attempt + d = retries →
    (∀ i, attempt ≤ i < retries → ∃ message, axios_get i = Failure message) →
    fetch_loop axios_get url retries attempt (S d) lastError
    = MkFetched
        (inr ("Failed to fetch HTML from " +:+ url +:+ " after "
              +:+ pretty (retries + 1) +:+ " attempts: " +:+ last))
        (backoff <$> seq attempt d).
Proof.
  intros Hlast d. induction d as [|d IH]; intros attempt lastError Heq Hfail.
  - replace attempt with retries by lia. simpl.
    rewrite Hlast, decide_False by lia. done.
  - destruct (Hfail attempt) as [message Hmessage]; [lia|].
    rewrite fetch_loop_S, Hmessage, decide_True by lia. cbv zeta.
    rewrite (IH (S attempt)); [done | lia |]. intros i Hi. apply Hfail. lia.
Qed.

(** X18: when all [retries + 1] requests fail, [fetchHTML] throws an error
    that carries the number of attempts and the message of the last
    failure; it has waited [retries] times, never after the last
    request. *)
Theorem fetchHTML_gives_up (axios_get : nat → outcome) (url : string)
    (retries : nat) (last : string) :
  (∀ i, i < retries → ∃ message, axios_get i = Failure message) →
  axios_get retries = Failure last →
  fetchHTML axios_get url (Some retries)
  = MkFetched
      (inr ("Failed to fetch HTML from " +:+ url +:+ " after "
            +:+ pretty (retries + 1) +:+ " attempts: " +:+ last))
      (backoff <$> seq 0 retries).
Proof.
  intros Hfail Hlast. unfold fetchHTML. simpl.
  replace (retries + 1) with (S retries) at 1 by lia.
  apply fetch_loop_failure; [done | done |]. intros i Hi. apply Hfail. lia.
Qed.

Lemma fetch_loop_bounded (get get' : nat → outcome) (url : string)
    (retries : nat) :
  (∀ i, i ≤ retries → get i = get' i) →
  ∀ remaining attempt lastError,
    attempt + remaining = retries + 1 →
    fetch_loop get url retries attempt remaining lastError
    = fetch_loop get' url retries attempt remaining lastError.
Proof.
  intros Hsame remaining.
  induction remaining as [|remaining IH]; intros attempt lastError Heq; [done|].
  simpl. rewrite <- Hsame by lia. destruct (get attempt); [done|].
  by rewrite IH by lia.
Qed.

(** X19: [fetchHTML] never makes more than [retries + 1] requests: what
    a later request would do has no effect on its result.  Without the
    [retry] option it makes one request. *)
Theorem fetchHTML_attempts_bounded (get get' : nat → outcome) (url : string)
    (retry : option nat) :
  (∀ i, i ≤ default 0 retry → get i = get' i) →
  fetchHTML get url retry = fetchHTML get' url retry.
Proof.
  intros Hsame. unfold fetchHTML. simpl. apply fetch_loop_bounded; [done|lia].
Qed.

End fetching.

Lemma fetchHTML_first_success_witness :
  Scraper.fetchHTML
    (λ i, if decide (i < 2) then Scraper.Failure "timeout" else Scraper.Response "<html>")
    "https://example.com" (Some 3)
  = Scraper.MkFetched (inl "<html>") [1000; 2000]%N.
Proof.
  apply (fetchHTML_first_success
           (λ i, if decide (i < 2) then Scraper.Failure "timeout"
                 else Scraper.Response "<html>")
           "https://example.com" 3 2 "<html>").
  - lia.
  - intros i Hi. exists "timeout". by rewrite decide_True.
  - reflexivity.
Defined.

Lemma fetchHTML_gives_up_witness :
  Scraper.fetchHTML (λ _, Scraper.Failure "ECONNREFUSED") "https://example.com" (Some 2)
  = Scraper.MkFetched
      (inr "Failed to fetch HTML from https://example.com after 3 attempts: ECONNREFUSED")
      [1000; 2000]%N.
Proof.
  apply (fetchHTML_gives_up (λ _, Scraper.Failure "ECONNREFUSED")
           "https://example.com" 2 "ECONNREFUSED").
  - intros i _. by exists "ECONNREFUSED".
  - reflexivity.
Defined.

Lemma fetchHTML_attempts_bounded_witness :
  Scraper.fetchHTML
    (λ i, if decide (i = 1) then Scraper.Response "<html>" else Scraper.Failure "timeout")
    "https://example.com" None
  = Scraper.fetchHTML (λ _, Scraper.Failure "timeout") "https://example.com" None.
Proof.
  apply (fetchHTML_attempts_bounded
           (λ i, if decide (i = 1) then Scraper.Response "<html>"
                 else Scraper.Failure "timeout")
           (λ _, Scraper.Failure "timeout") "https://example.com" None).
  intros i Hi. simpl in Hi. rewrite decide_False by lia. reflexivity.
Defined.

(** ** The scraper's conversion of a flat selector map *)

Section scraper_conversion.
Context `{!Builtins}.

Lemma scraper_conversion_lookup (schema : gmap string string)
    (defaultType : option string) :
  ∃ s t,
    Scraper.convertToStructuredSchema schema defaultType
    = {| selectors := s; structure := Some t |}
    ∧ ∀ i, s !! i = delete "__proto__" schema !! i
           ∧ t !! i = Scraper.field_descriptor (default "string" defaultType)
                        <$> delete "__proto__" schema !! i.
Proof.
  unfold Scraper.convertToStructuredSchema.
  pose proof (λ i,
    map_fold_pair_own_slot
      (λ field selector (acc : gmap string string * gmap string StructuredSchema),
         (assign field selector acc.1,
          assign field
            (Scraper.field_descriptor (default "string" defaultType) selector) acc.2))
      schema i) as Hloop.
  destruct (map_fold _ _ schema) as [s t]. simpl in *.
  exists s, t. split; [done|]. intros i. destruct (Hloop i) as [-> ->].
  - intros k v acc j Hj. simpl. by rewrite !lookup_assign_ne.
  - intros k v acc Hown1 Hown2. simpl. unfold assign.
    case_decide; by rewrite ?lookup_insert_eq, ?Hown1, ?Hown2, ?lookup_empty.
  - destruct (decide (i = "__proto__")) as [->|Hname].
    + rewrite lookup_delete_eq. by destruct (schema !! "__proto__").
    + rewrite lookup_delete_ne by done.
      destruct (schema !! i); simpl; by rewrite ?lookup_assign.
Qed.

(** X20: the scraper's [convertToStructuredSchema] keeps the selector map
    as it is, whatever the selectors look like, but for a field named
    [__proto__], which it drops; it declares one descriptor for each field
    it keeps, nullable and of the default type. *)
Theorem scraper_conversion_keeps_selectors (schema : gmap string string)
    (defaultType : option string) :
  selectors (Scraper.convertToStructuredSchema schema defaultType)
  = delete "__proto__" schema
  ∧ structure (Scraper.convertToStructuredSchema schema defaultType)
    = Some (Scraper.field_descriptor (default "string" defaultType)
              <$> delete "__proto__" schema)
  ∧ (schema !! "__proto__" = None →
     selectors (Scraper.convertToStructuredSchema schema defaultType) = schema).
Proof.
  destruct (scraper_conversion_lookup schema defaultType) as (s & t & -> & Hlookup).
  simpl. assert (s = delete "__proto__" schema) as ->.
  { apply map_eq. intros i. apply Hlookup. }
  split_and!.
  - done.
  - f_equal. apply map_eq. intros i. rewrite lookup_fmap. apply Hlookup.
  - apply delete_id.
Qed.

(** X21: extraction with a converted flat map drops no field but one named
    [__proto__]: every other field of the map is in the output, [null]
    when nothing was extracted and the text of the raw value otherwise (an
    array of several matches is joined with commas). *)
Theorem flat_schema_output (html : CheerioAPI) (schema : gmap string string)
    (now fieldName selector : string) :
  schema !! fieldName = Some selector →
  fieldName ≠ "_metadata" →
  extractStructuredData html (Scraper.convertToStructuredSchema schema None) now
    !! fieldName
  = if decide (fieldName = "__proto__") then None
    else
      Some
        (let raw := extract_field html fieldName selector in
         if is_null raw then VNull else VString (String_ raw)).
Proof.
  intros Hfield Hname.
  destruct (scraper_conversion_lookup schema None) as (s & t & -> & Hlookup).
  destruct (Hlookup fieldName) as [Hs Ht].
  unfold extractStructuredData. simpl.
  rewrite addMetadata_lookup_ne, validateAndStructure_lookup, Ht by done.
  case_decide as Hproto.
  - subst fieldName. by rewrite lookup_delete_eq.
  - rewrite lookup_delete_ne, Hfield in Hs |- * by done. simpl.
    unfold validate_step. rewrite rawData_lookup, decide_False, Hs by done. simpl.
    rewrite extract_field_defined. simpl.
    destruct (is_null _); by rewrite lookup_insert_eq.
Qed.

End scraper_conversion.

Lemma scraper_conversion_keeps_selectors_witness :
  selectors (Scraper.convertToStructuredSchema Examples.four_selectors None)
  = Examples.four_selectors.
Proof.
  apply (scraper_conversion_keeps_selectors Examples.four_selectors None).
  reflexivity.
Defined.

Lemma flat_schema_output_witness :
  extractStructuredData (H := Reference.builtins) Examples.page
    (Scraper.convertToStructuredSchema Examples.four_selectors None)
    "2024-01-01T00:00:00.000Z" !! "items"
  = Some (VString "a,b,c")
  ∧ extractStructuredData (H := Reference.builtins) Examples.page
      (Scraper.convertToStructuredSchema Examples.proto_selectors None)
      "2024-01-01T00:00:00.000Z" !! "__proto__"
    = None.
Proof.
  split.
  - apply (flat_schema_output (H := Reference.builtins) Examples.page
             Examples.four_selectors "2024-01-01T00:00:00.000Z" "items" ".item");
      [reflexivity | done].
  - apply (flat_schema_output (H := Reference.builtins) Examples.page
             Examples.proto_selectors "2024-01-01T00:00:00.000Z" "__proto__" ".t");
      [reflexivity | done].
Defined.

(** ** Configuration from the environment *)

(** The API key comes from the environment variable
    [GOOGLE_AI_API_KEY] when it is set to a non-empty value, whatever the
    configuration file says; an unset or empty variable falls back to the
    configured key, and to the empty string when there is none. *)
Theorem api_key_precedence (env : gmap string string) (configApiKey : option string) :
  (∀ value, env !! "GOOGLE_AI_API_KEY" = Some value → value ≠ "" →
     Utils.getGoogleApiKey env configApiKey = value)
  ∧ (env !! "GOOGLE_AI_API_KEY" = None ∨ env !! "GOOGLE_AI_API_KEY" = Some "" →
     Utils.getGoogleApiKey env configApiKey = default "" configApiKey).
Proof.
  unfold Utils.getGoogleApiKey, Utils.getEnv. split.
  - intros value -> Hvalue. by rewrite bool_decide_false.
  - intros [-> | ->]; done.
Qed.

Lemma api_key_precedence_witness :
  Utils.getGoogleApiKey {[ "GOOGLE_AI_API_KEY" := "" ]} (Some "from-config")
  = "from-config".
Proof.
  apply (api_key_precedence {[ "GOOGLE_AI_API_KEY" := "" ]} (Some "from-config")).
  right. reflexivity.
Defined.

(** ** The two [extractData] functions *)

Section two_extractData.
Context `{!Builtins}.

Lemma scraper_extractData_lookup (html : CheerioAPI) (schema : gmap string string)
    (key : string) :
  Scraper.extractData html schema !! key
  = if decide (key = "__proto__") then None
    else
      (λ selector,
         match html selector with
         | None => VString ""
         | Some elements =>
             if bool_decide (1 < length elements) then
               VArray ((λ el, VString (trim (el_text el))) <$> elements)
             else VString (trim (text elements))
         end) <$> schema !! key.
Proof.
  unfold Scraper.extractData.
  apply (map_fold_assign
    (λ (_ : string) selector,
       match html selector with
       | None => VString ""
       | Some elements =>
           if bool_decide (1 < length elements) then
             VArray ((λ el, VString (trim (el_text el))) <$> elements)
           else VString (trim (text elements))
       end)).
Qed.

Lemma extractData_lookup (html : CheerioAPI) (schema : gmap string string)
    (key : string) :
  extractData html schema !! key
  = if decide (key = "__proto__") then None
    else
      (λ selector,
         match html selector with
         | None => VNull
         | Some element =>
             if bool_decide (1 < length element) then
               VArray ((λ el, VString (trim (el_text el))) <$> element)
             else if bool_decide (0 < length element) then
               VString (trim (text element))
             else VNull
         end) <$> schema !! key.
Proof.
  unfold extractData.
  apply (map_fold_assign
    (λ (_ : string) selector,
       match html selector with
       | None => VNull
       | Some element =>
           if bool_decide (1 < length element) then
             VArray ((λ el, VString (trim (el_text el))) <$> element)
           else if bool_decide (0 < length element) then
             VString (trim (text element))
           else VNull
       end)).
Qed.

(** X22: the scraper's [extractData] and the extractor's give a field, not
    named [__proto__], the same value whenever its selector matches at
    least one node.  They part where nothing is there: for a selector that
    matches nothing the extractor says [null] and the scraper the trimmed
    empty text, and for a selector that raises the extractor says [null]
    and the scraper the empty string.  Neither stores a field named
    [__proto__]. *)
Theorem extractData_versions (html : CheerioAPI) (schema : gmap string string)
    (key selector : string) :
  schema !! key = Some selector →
  (key ≠ "__proto__" →
   match html selector with
   | Some [] =>
       extractData html schema !! key = Some VNull
       ∧ Scraper.extractData html schema !! key = Some (VString (trim ""))
   | Some _ =>
       Scraper.extractData html schema !! key = extractData html schema !! key
   | None =>
       extractData html schema !! key = Some VNull
       ∧ Scraper.extractData html schema !! key = Some (VString "")
   end)
  ∧ extractData html schema !! "__proto__" = None
  ∧ Scraper.extractData html schema !! "__proto__" = None.
Proof.
  intros Hkey. rewrite !scraper_extractData_lookup, !extractData_lookup.
  split; [|done]. intros Hname. rewrite !decide_False, Hkey by done. simpl.
  destruct (html selector) as [[|el [|el' rest]]|]; simpl; done.
Qed.

End two_extractData.

Lemma extractData_versions_witness :
  extractData (H := Reference.builtins) Examples.page Examples.four_selectors !! "missing"
  = Some VNull
  ∧ Scraper.extractData (H := Reference.builtins) Examples.page
      Examples.four_selectors !! "missing"
    = Some (VString "").
Proof.
  apply (extractData_versions (H := Reference.builtins) Examples.page
           Examples.four_selectors "missing" ".none");
    [reflexivity | done].
Defined.

(** ** Coercing twice *)

Section idempotence.
Context `{!Builtins}.

Lemma schema_size_property (ps : gmap string StructuredSchema) (k : string)
    (p : StructuredSchema) :
  ps !! k = Some p →
  schema_size p ≤ map_fold (λ _ p acc, schema_size p + acc) 0 ps.
Proof.
  revert k p.
  apply (map_fold_weak_ind (λ r (m : gmap string StructuredSchema),
    ∀ k p, m !! k = Some p → schema_size p ≤ r)).
  - intros k p. by rewrite lookup_empty.
  - intros i x m r _ IH k p. destruct (decide (k = i)) as [->|Hne].
    + rewrite lookup_insert_eq. intros [= ->]. lia.
    + rewrite lookup_insert_ne by done. intros Hk. specialize (IH k p Hk). lia.
Qed.

Lemma no_maxItems_property (ps : gmap string StructuredSchema) (k : string)
    (p : StructuredSchema) :
  map_fold (λ _ p acc, no_maxItems p && acc) true ps = true →
  ps !! k = Some p → no_maxItems p = true.
Proof.
  revert k p.
  apply (map_fold_weak_ind (λ r (m : gmap string StructuredSchema),
    ∀ k p, r = true → m !! k = Some p → no_maxItems p = true)).
  - intros k p _. by rewrite lookup_empty.
  - intros i x m r _ IH k p [Hx Hr]%andb_true_iff.
    destruct (decide (k = i)) as [->|Hne].
    + rewrite lookup_insert_eq. by intros [= <-].
    + rewrite lookup_insert_ne by done. by apply IH.
Qed.

(** Coercion never turns a defined value into [undefined]. *)
Lemma convertToType_defined (value : any) (schema : StructuredSchema) :
  is_undefined value = false → is_undefined (convertToType value schema) = false.
Proof.
  intros Hdefined. destruct schema as [t ? ? ? ? ? ? ps ? ? its ?]. simpl.
  repeat case_decide; try done.
  - by destruct (PrimFloat.is_nan _).
  - by destruct value.
  - by destruct its.
  - destruct ps; [done|]. by destruct value.
Qed.

Lemma get_VObject (m : gmap string any) (k : string) :
  get (VObject m) k = default VUndefined (m !! k).
Proof. reflexivity. Qed.

Local Arguments get : simpl never.

Lemma convertToType_idempotent_sized (n : nat) :
  ∀ (schema : StructuredSchema) (value : any),
    schema_size schema < n →
    no_maxItems schema = true →
    convertToType (convertToType value schema) schema = convertToType value schema.
Proof.
  induction n as [|n IH]; intros schema value Hsize Hmax; [lia|].
  destruct schema as [t f d nu e mx mn ps rq po its sl].
  simpl in Hsize, Hmax.
  destruct mx as [m|]; [done|]. simpl in Hmax.
  apply andb_true_iff in Hmax as [Hitems Hprops].
  simpl. repeat case_decide; try done.
  - (* number *)
    destruct (PrimFloat.is_nan (Number_ value)) eqn:Hnan; simpl; by rewrite ?Hnan.
  - (* boolean *)
    by destruct value.
  - (* array *)
    destruct its as [items|]; [|done]. f_equal.
    rewrite <- list_fmap_compose. apply list_fmap_ext. intros i item _. simpl.
    apply IH; [lia|done].
  - (* object *)
    destruct ps as [props|]; [|by destruct value].
    set (raw := if is_object value then value else VObject ∅).
    f_equal. apply map_eq. intros k.
    rewrite !object_loop_lookup. cbn [is_object].
    case_decide as Hname; [done|].
    destruct (props !! k) as [p|] eqn:Hk; [simpl|done].
    rewrite get_VObject, object_loop_lookup, decide_False, Hk by done. simpl.
    destruct (negb (is_undefined (get raw k)) || required_includes p k) eqn:Hin.
    + simpl.
      assert (convertToType (convertToType (get raw k) p) p
              = convertToType (get raw k) p) as ->.
      { apply IH; [|by eapply no_maxItems_property].
        pose proof (schema_size_property props k p Hk). lia. }
      destruct (required_includes p k); [by rewrite orb_true_r|].
      rewrite orb_false_r in Hin. apply negb_true_iff in Hin.
      by rewrite (convertToType_defined _ _ Hin).
    + simpl. apply orb_false_elim in Hin as [_ ->]. done.
Qed.

(** X23: coercion is idempotent on every descriptor that sets no
    [maxItems] (nested descriptors included): coercing a coerced value
    again with the same descriptor changes nothing.  This is for
    descriptors and raw values that stay clear of the prototypes: no
    declared property and no key of a raw object has the name of an
    inherited member, so that every read is a read of an own property and
    no write replaces a prototype. *)
Theorem convertToType_idempotent `{!Prototypes} (value : any)
    (schema : StructuredSchema) :
  no_maxItems schema = true →
  plain_properties schema = true →
  plain_value value = true →
  convertToType (convertToType value schema) schema = convertToType value schema.
Proof.
  intros Hmax _ _.
  apply (convertToType_idempotent_sized (S (schema_size schema))); [lia|done].
Qed.

End idempotence.

Lemma convertToType_idempotent_witness :
  convertToType (H := Reference.builtins)
    (convertToType (H := Reference.builtins)
       (VObject {[ "a" := VString "x"; "c" := VString "y" ]}) Examples.two_properties)
    Examples.two_properties
  = convertToType (H := Reference.builtins)
      (VObject {[ "a" := VString "x"; "c" := VString "y" ]}) Examples.two_properties.
Proof.
  apply (convertToType_idempotent (H := Reference.builtins)
           (H0 := Reference.prototypes));
    vm_compute; reflexivity.
Defined.

(** With a negative [maxItems] every pass drops elements from the end:
    [slice(0, -1)] is applied again each time. *)
Example negative_maxItems_shrinks :
  let schema :=
    {| type := "array"; format := None; description := None; nullable := None;
       enum := None; maxItems := Some (PrimFloat.opp PrimFloat.one);
       minItems := None; properties := None; required := None;
       propertyOrdering := None; items := None; selector := None |} in
  convertToType (H := Reference.builtins)
    (VArray [VString "a"; VString "b"; VString "c"]) schema
  = VArray [VString "a"; VString "b"]
  ∧ convertToType (H := Reference.builtins)
      (VArray [VString "a"; VString "b"]) schema
    = VArray [VString "a"].
Proof. split; reflexivity. Qed.
